(** * cns/networkcontainers (Linux): invoking the azure-vnet CNI plugin

    A shallow embedding of [cns/networkcontainers/networkcontainers_linux.go]
    and the properties of its update path: request short-circuits,
    precondition checks, flattening of the CNI configuration list, the
    environment handed to the plugin and the interpretation of the plugin's
    exit.

    Conventions.
    - A Go [[]byte] is a [list byte], a Go [string] is a [string]; the
      conversions [string(b)] and [[]byte(s)] are [string_of_list_byte] and
      [list_byte_of_string].
    - A Go [error] value is an [option error]: [None] is the nil interface,
      [Some e] carries the dynamic value.
    - A Go function returning [(T, error)] returns a pair here.
    - Interaction with the operating system is recorded as a trace of
      [event]s; what the system answers is read from a [World].
    - A run-time panic is an outcome of its own, distinct from a returned
      error. *)

From Stdlib Require Import ZArith List.
From Stdlib.Strings Require Import String Ascii Byte.
From Stdlib Require Import Floats.PrimFloat Floats.SpecFloat Floats.FloatOps.
From Stdlib Require Import Numbers.Cyclic.Int63.Uint63.
From stdpp Require Import base option gmap strings list pretty sorting.

#[local] Set Warnings "-register-all".
#[local] Open Scope Z_scope.

Abbreviation bytes := (list byte).

(* ================================================================== *)
(** ** Values decoded from JSON into [interface{}] *)

(** What [encoding/json] stores in an [interface{}]: nil, bool, float64,
    string, [[]interface{}] and [map[string]interface{}]. *)
Inductive Value : Type :=
| VNil
| VBool (b : bool)
| VFloat64 (f : float)
| VString (s : string)
| VSlice (l : list Value)
| VMap (m : gmap string Value).

(** Dynamic types, as a failed type assertion reports them. *)
Inductive dyntype := TNil | TBool | TFloat64 | TString | TSlice | TMap.

Definition typeOf (v : Value) : dyntype :=
  match v with
  | VNil => TNil
  | VBool _ => TBool
  | VFloat64 _ => TFloat64
  | VString _ => TString
  | VSlice _ => TSlice
  | VMap _ => TMap
  end.

(** [m[k]] on a [map[string]interface{}]: the zero value (nil) when the key
    is absent. *)
Definition index (m : gmap string Value) (k : string) : Value :=
  default VNil (m !! k).

(* ================================================================== *)
(** ** Errors *)

(** [go/types.Error], the struct the source names [types.Error] (the file
    imports ["go/types"]).  Only the exported fields are listed: the
    unexported ones cannot be reached by the JSON decoder or by this
    package.  [Fset] is a [*token.FileSet]; only whether it is nil can be
    observed here. *)
Record types_Error := {
  Fset : bool;      (* true: a non-nil *token.FileSet *)
  Pos  : Z;         (* token.Pos *)
  Msg  : string;
  Soft : bool
}.

(** [types.Error{}] *)
Definition types_Error_zero : types_Error :=
  {| Fset := false; Pos := 0; Msg := EmptyString; Soft := false |}.

Inductive Errno := ENOENT | EACCES | ENOTDIR | EIO | ENOEXEC | EPIPE.

(** The dynamic types an [error] takes in this package. *)
Inductive error : Type :=
| errorString (s : string)                          (* errors.New *)
| PathError (op path : string) (errno : Errno)      (* *os.PathError *)
| ExitError (status : Z)                            (* *exec.ExitError *)
| ExecError (name : string) (cause : string)        (* *exec.Error *)
| SyntaxError (msg : string) (offset : Z)           (* *json.SyntaxError *)
| UnmarshalTypeError (value field type : string)     (* *json.UnmarshalTypeError *)
| TypesError (e : types_Error).                     (* *types.Error *)

(** [os.IsNotExist] *)
Definition os_IsNotExist (err : error) : bool :=
  match err with
  | PathError _ _ ENOENT => true
  | _ => false
  end.

(** [_, ok := err.( *exec.ExitError )] *)
Definition isExitError (err : option error) : bool :=
  match err with
  | Some (ExitError _) => true
  | _ => false
  end.

Definition isTypesError (err : option error) : bool :=
  match err with
  | Some (TypesError _) => true
  | _ => false
  end.

(** The errors [Run] of an [exec.Cmd] produces: a failed lookup or start of the
    binary, an I/O failure on the pipes, or a non-zero exit. *)
Definition executionError (err : error) : bool :=
  match err with
  | PathError _ _ _ | ExitError _ | ExecError _ _ => true
  | _ => false
  end.

(* ================================================================== *)
(** ** Request and CNI data *)

(** Modelled from the spec: the declarations of package [cns]
    ([CreateNetworkContainerRequest], [KubernetesPodInfo]) are not part of
    the source file; the records list the fields the source reads. *)
Record IPSubnet := { IPAddress : string }.
Record IPConfiguration := { IPSubnet_ : IPSubnet }.
Record CreateNetworkContainerRequest := {
  NetworkContainerType : string;
  NetworkContainerid   : string;
  IPConfiguration_     : IPConfiguration;
  OrchestratorContext  : bytes
}.

Record KubernetesPodInfo := {
  PodName      : string;
  PodNamespace : string
}.

Definition KubernetesPodInfo_zero : KubernetesPodInfo :=
  {| PodName := EmptyString; PodNamespace := EmptyString |}.

(** [libcni.RuntimeConf], the fields the source sets. *)
Record RuntimeConf := {
  rt_ContainerID : string;
  rt_NetNS       : string;
  rt_IfName      : string;
  rt_Args        : list (string * string)
}.

(** [invoke.Args], the fields the source sets. *)
Record invoke_Args := {
  Command     : string;
  ContainerID : string;
  NetNS       : string;
  PluginArgs  : list (string * string);
  IfName      : string;
  Path        : string
}.

(** [exec.Cmd] as [updateNetwork] configures it.  Standard output is a
    fresh buffer and standard error is the parent's. *)
Record Cmd := {
  cmd_Path  : string;
  cmd_Env   : list string;
  cmd_Stdin : bytes
}.

(* ================================================================== *)
(** ** Effects *)

Inductive logarg :=
| LString (s : string)
| LError (e : error)
| LPodInfo (p : KubernetesPodInfo)
| LRuntimeConf (rt : RuntimeConf)
| LEnviron (env : list string).

Inductive event :=
| EvLog (format : string) (args : list logarg)      (* log.Printf *)
| EvInterfaceExists (id : string)
| EvStat (path : string)                            (* os.Stat *)
| EvReadFile (path : string)                        (* ioutil.ReadFile *)
| EvRun (c : Cmd).                                  (* c.Run(): one subprocess *)

Inductive panic :=
| TypeAssertionPanic (have want : dyntype)
| IndexOutOfRangePanic (i len : Z).

Inductive outcome (A : Type) :=
| Returns (a : A)
| Panics (p : panic).
Arguments Returns {A} a.
Arguments Panics {A} p.

(** A computation yields an outcome and the events it performed, oldest
    first. *)
Definition M (A : Type) : Type := outcome A * list event.

Definition ret {A} (a : A) : M A := (Returns a, []).

Definition bind {A B} (m : M A) (f : A -> M B) : M B :=
  match m with
  | (Returns a, t) => let '(r, t') := f a in (r, t ++ t')
  | (Panics p, t) => (Panics p, t)
  end.

Definition emit (e : event) : M unit := (Returns tt, [e]).
Definition throw {A} (p : panic) : M A := (Panics p, []).

Notation "'do' x <- m ; k" := (bind m (fun x => k))
  (at level 10, x pattern, m at level 100, k at level 200, only parsing).
Notation "'run' m ; k" := (bind m (fun _ => k))
  (at level 10, m at level 100, k at level 200, only parsing).

Definition result {A} (m : M A) : outcome A := fst m.
Definition trace {A} (m : M A) : list event := snd m.

(** Type assertions without the comma-ok form: they panic on mismatch. *)
Definition assertSlice (v : Value) : M (list Value) :=
  match v with
  | VSlice l => ret l
  | _ => throw (TypeAssertionPanic (typeOf v) TSlice)
  end.

Definition assertMap (v : Value) : M (gmap string Value) :=
  match v with
  | VMap m => ret m
  | _ => throw (TypeAssertionPanic (typeOf v) TMap)
  end.

Definition assertString (v : Value) : M string :=
  match v with
  | VString s => ret s
  | _ => throw (TypeAssertionPanic (typeOf v) TString)
  end.

(** [s[0]] on a slice. *)
Definition first (l : list Value) : M Value :=
  match l with
  | v :: _ => ret v
  | [] => throw (IndexOutOfRangePanic 0 0)
  end.

(** What the operating system and the rest of the package answer.
    [interfaceExists] is a function of the package that is defined outside
    this source file; its answer is part of the world. *)
Record World := {
  interfaceExists : string -> bool * option error;
  os_Stat         : string -> option error;
  ioutil_ReadFile : string -> bytes * option error;
  Cmd_Run         : Cmd -> bytes * option error   (* captured stdout, error *)
}.

(** The library functions the source calls. *)
Record GoLib := {
  (* json.Unmarshal(content, &configMap), configMap a nil map *)
  json_Unmarshal_map   : bytes -> gmap string Value * option error;
  (* json.Unmarshal(ctx, &podInfo), podInfo the zero struct *)
  json_Unmarshal_pod   : bytes -> KubernetesPodInfo * option error;
  (* json.Unmarshal(output, &emsg): the struct as the decoder leaves it *)
  json_Unmarshal_Error : bytes -> types_Error -> types_Error * option error;
  json_Marshal         : gmap string Value -> bytes * option error;
  strconv_Quote        : string -> string;          (* the verb %q *)
  Error_               : error -> string;           (* the method Error() *)
  AsEnv                : invoke_Args -> list string (* AsEnv of invoke.Args *)
}.

(* ================================================================== *)
(** ** The source file *)

Definition VersionStr : string := "cniVersion".
Definition PluginsStr : string := "plugins".
Definition NameStr    : string := "name".

Definition pluginPath : string := "/opt/cni/bin/azure-vnet".
Definition confPath   : string := "/etc/cni/net.d/10-azure.conflist".

Section Source.
Variable WebApps : string.     (* cns.WebApps *)
Variable L : GoLib.
Variable W : World.

Definition log_Printf (format : string) (args : list logarg) : M unit :=
  emit (EvLog format args).

Definition setWeakHostOnInterface (ipAddress : string) : M (option error) :=
  ret None.

Definition deleteInterface (networkContainerID : string) : M (option error) :=
  ret None.

Definition buildCNIRuntimeConf (podName podNs podSandboxId podNetnsPath
                                interfaceName : string)
  : M (RuntimeConf * option error) :=
  let rt := {| rt_ContainerID := podSandboxId;
               rt_NetNS := podNetnsPath;
               rt_IfName := interfaceName;
               rt_Args := [("K8S_POD_NAMESPACE"%string, podNs);
                           ("K8S_POD_NAME"%string, podName)] |} in
  ret (rt, None).

Definition args (action : string) (rt : RuntimeConf) : invoke_Args :=
  {| Command := action;
     ContainerID := rt_ContainerID rt;
     NetNS := rt_NetNS rt;
     PluginArgs := rt_Args rt;
     IfName := rt_IfName rt;
     Path := "/opt/cni/bin" |}.

Definition pluginErr (err : option error) (output : bytes) : option error :=
  if isExitError err then
    let '(emsg, perr) := json_Unmarshal_Error L output types_Error_zero in
    let emsg :=
      match perr with
      | Some pe =>
          {| Fset := Fset emsg; Pos := Pos emsg;
             Msg := "netplugin failed but error parsing its diagnostic message "
                    +:+ strconv_Quote L (string_of_list_byte output)
                    +:+ ": " +:+ Error_ L pe;
             Soft := Soft emsg |}
      | None => emsg
      end in
    Some (TypesError emsg)
  else err.

Definition updateNetwork (rt : RuntimeConf) (netconf : bytes)
  : M (option error) :=
  let environ := AsEnv L (args "UPDATE" rt) in
  run log_Printf "[Azure CNS] CNI called with environ variables %v"
                 [LEnviron environ];
  let c := {| cmd_Path := "/opt/cni/bin/azure-vnet";
              cmd_Env := environ;
              cmd_Stdin := netconf |} in
  run emit (EvRun c);
  let '(stdout, err) := Cmd_Run W c in
  ret (pluginErr err stdout).

(** The entry of the plugin list is a reference into [configMap]; the
    two assignments update that entry in place and leave the top-level
    keys read after them untouched. *)
Definition getNetworkConf (configFilePath : string)
  : M (bytes * option error) :=
  run emit (EvReadFile configFilePath);
  let '(content, err) := ioutil_ReadFile W configFilePath in
  match err with
  | Some e => ret ([], Some e)
  | None =>
  let '(configMap, err) := json_Unmarshal_map L content in
  match err with
  | Some e => ret ([], Some e)
  | None =>
  do pluginsSection <- assertSlice (index configMap PluginsStr);
  do entry <- first pluginsSection;
  do flatNetConfigMap <- assertMap entry;
  do version <- assertString (index configMap VersionStr);
  let flatNetConfigMap := <[VersionStr := VString version]> flatNetConfigMap in
  do name <- assertString (index configMap NameStr);
  let flatNetConfigMap := <[NameStr := VString name]> flatNetConfigMap in
  let '(netConfig, err) := json_Marshal L flatNetConfigMap in
  match err with
  | Some e => ret ([], Some e)
  | None => ret (netConfig, None)
  end end end.

Definition createOrUpdateWithOperation
  (createNetworkContainerRequest : CreateNetworkContainerRequest)
  (operation : string) : M (option error) :=
  run log_Printf
    "[Azure CNS] createOrUpdateWithOperation called with operation type %v"
    [LString operation];
  run emit (EvStat "/opt/cni/bin/azure-vnet");
  if match os_Stat W "/opt/cni/bin/azure-vnet" with
     | Some err => os_IsNotExist err
     | None => false
     end
  then ret (Some (errorString
         "[Azure CNS] Unable to find azure-vnet under /opt/cni/bin/. Cannot continue"))
  else
  if String.eqb (IPAddress (IPSubnet_ (IPConfiguration_
                   createNetworkContainerRequest))) ""
  then ret (Some (errorString
         "[Azure CNS] IPAddress in IPConfiguration of createNetworkContainerRequest is nil"))
  else
  let '(podInfo, err) :=
    json_Unmarshal_pod L (OrchestratorContext createNetworkContainerRequest) in
  match err with
  | Some e =>
      run log_Printf "[Azure CNS] Unmarshalling %s failed with error %v"
            [LString (NetworkContainerType createNetworkContainerRequest);
             LError e];
      ret (Some e)
  | None =>
  run log_Printf "[Azure CNS] Pod info %v" [LPodInfo podInfo];
  do (rt, err) <- buildCNIRuntimeConf (PodName podInfo) (PodNamespace podInfo)
                     "" "" (NetworkContainerid createNetworkContainerRequest);
  match err with
  | Some e =>
      run log_Printf
            "[Azure CNS] Failed to build runtime configuration with error %v"
            [LError e];
      ret (Some e)
  | None =>
  run log_Printf "[Azure CNS] run time conf info %v" [LRuntimeConf rt];
  do (netConf, err) <- getNetworkConf "/etc/cni/net.d/10-azure.conflist";
  match err with
  | Some e =>
      run log_Printf
            "[Azure CNS] Failed to build network configuration with error %v"
            [LError e];
      ret (Some e)
  | None =>
  run log_Printf "[Azure CNS] network configuration info %v"
        [LString (string_of_list_byte netConf)];
  do err <- updateNetwork rt netConf;
  match err with
  | Some e =>
      run log_Printf "[Azure CNS] Failed to update network with error %v"
            [LError e];
      ret (Some e)
  | None => ret None
  end end end end.

Definition createOrUpdateInterface
  (createNetworkContainerRequest : CreateNetworkContainerRequest)
  : M (option error) :=
  if String.eqb (NetworkContainerType createNetworkContainerRequest) WebApps
  then
    run log_Printf
          "[Azure CNS] Operation not supported for WebApps Orchestrator." [];
    ret None
  else
  run emit (EvInterfaceExists
             (NetworkContainerid createNetworkContainerRequest));
  let '(exists_, _) :=
    interfaceExists W (NetworkContainerid createNetworkContainerRequest) in
  if negb exists_
  then
    run log_Printf "[Azure CNS] Only Update Operation is supported." [];
    ret None
  else createOrUpdateWithOperation createNetworkContainerRequest "UPDATE".

End Source.

(* ================================================================== *)
(** ** A reference instance of the library

    An executable rendering of the library functions, used to run the
    source on concrete files and plugin outputs.  It covers ASCII text:
    JSON without [\u] escapes and with integer literals.  An input outside
    that fragment is reported as [Beyond] and surfaces as an error of that
    name, which is where the instance departs from [encoding/json].  The
    theorems on the source hold for every [GoLib]; only the concrete runs
    use this one. *)
Module Ref.

(** One double quote, one backslash, one apostrophe. *)
Definition dq : ascii := "034"%char.
Definition bsl : ascii := "092"%char.
Definition apo : ascii := "039"%char.

Definition str (c : ascii) : string := String c EmptyString.

(** [q s] is [s] between double quotes. *)
Definition q (s : string) : string := str dq +:+ s +:+ str dq.

Definition code (c : ascii) : N := N_of_ascii c.

Definition hexdigit (n : N) : ascii :=
  if (n <? 10)%N then ascii_of_N (48 + n) else ascii_of_N (87 + n).

Definition hex2 (c : ascii) : string :=
  String (hexdigit (code c / 16)) (str (hexdigit (code c mod 16))).

(** [strconv.Quote] on one byte of ASCII text; a byte above 0x7f is
    written as [\xhh], which is what Go does for a byte that is not part
    of a valid UTF-8 sequence. *)
Definition quoteByte (c : ascii) : string :=
  if Ascii.eqb c dq then String bsl (str dq)
  else if Ascii.eqb c bsl then String bsl (str bsl)
  else if ((32 <=? code c) && (code c <=? 126))%N then str c
  else match code c with
       | 7%N => String bsl "a"
       | 8%N => String bsl "b"
       | 12%N => String bsl "f"
       | 10%N => String bsl "n"
       | 13%N => String bsl "r"
       | 9%N => String bsl "t"
       | 11%N => String bsl "v"
       | _ => String bsl ("x" +:+ hex2 c)
       end.

Fixpoint quoteBody (s : string) : string :=
  match s with
  | EmptyString => EmptyString
  | String c r => quoteByte c +:+ quoteBody r
  end.

Definition Quote (s : string) : string := q (quoteBody s).

(** [quoteChar] of [encoding/json]'s scanner. *)
Definition quoteChar (c : ascii) : string :=
  if Ascii.eqb c apo then String apo (String bsl (String apo (str apo)))
  else if Ascii.eqb c dq then String apo (String dq (str apo))
  else str apo +:+ quoteByte c +:+ str apo.

(** *** Scanning *)

Inductive syntax :=
| SNull
| SBool (b : bool)
| SNumber (lit : string)
| SString (s : string)
| SArray (l : list syntax)
| SObject (l : list (string * syntax)).

Inductive res (A : Type) :=
| Ok (a : A)
| Bad (msg : string) (rest : string)  (* rest: the input after the bad byte *)
| Eof
| Beyond.
Arguments Ok {A} a.
Arguments Bad {A} msg rest.
Arguments Eof {A}.
Arguments Beyond {A}.

Definition andThen {A B} (r : res A) (f : A -> res B) : res B :=
  match r with
  | Ok a => f a
  | Bad m rest => Bad m rest
  | Eof => Eof
  | Beyond => Beyond
  end.

Notation "'try' x <- m ; k" := (andThen m (fun x => k))
  (at level 10, x pattern, m at level 100, k at level 200, only parsing).

(** The scanner's complaint about the byte [c]. *)
Definition invalid {A} (c : ascii) (context rest : string) : res A :=
  if (127 <? code c)%N then Beyond
  else Bad ("invalid character " +:+ quoteChar c +:+ " " +:+ context) rest.

Definition isSpace (c : ascii) : bool :=
  match code c with
  | 32%N | 9%N | 10%N | 13%N => true
  | _ => false
  end.

Definition isDigit (c : ascii) : bool :=
  ((48 <=? code c) && (code c <=? 57))%N.

Fixpoint skip (s : string) : string :=
  match s with
  | String c r => if isSpace c then skip r else s
  | EmptyString => s
  end.

Definition unescape (c : ascii) : option ascii :=
  if Ascii.eqb c dq then Some dq
  else if Ascii.eqb c bsl then Some bsl
  else match c with
       | "/" => Some "/"
       | "b" => Some "008"
       | "f" => Some "012"
       | "n" => Some "010"
       | "r" => Some "013"
       | "t" => Some "009"
       | _ => None
       end%char.

(** The rest of a string literal, after its opening quote. *)
Fixpoint stringLit (s : string) (acc : list ascii) : res (string * string) :=
  match s with
  | EmptyString => Eof
  | String c r =>
      if Ascii.eqb c dq then Ok (string_of_list_ascii (rev acc), r)
      else if Ascii.eqb c bsl then
        match r with
        | EmptyString => Eof
        | String e r' =>
            match unescape e with
            | Some ch => stringLit r' (ch :: acc)
            | None => if Ascii.eqb e "u" then Beyond
                      else invalid e "in string escape code" r'
            end
        end
      else if (code c <? 32)%N then invalid c "in string literal" r
      else if (127 <? code c)%N then Beyond
      else stringLit r (c :: acc)
  end.

(** The rest of the literal [name], of which [expect] is still to come. *)
Fixpoint literal (name expect : string) (s : string) : res string :=
  match expect with
  | EmptyString => Ok s
  | String e expect' =>
      match s with
      | EmptyString => Eof
      | String c r =>
          if Ascii.eqb c e then literal name expect' r
          else invalid c ("in literal " +:+ name +:+ " (expecting "
                          +:+ String apo (String e (str apo)) +:+ ")") r
      end
  end.

Fixpoint digits (s : string) : string * string :=
  match s with
  | String c r =>
      if isDigit c then let '(ds, r') := digits r in (String c ds, r')
      else (EmptyString, s)
  | EmptyString => (EmptyString, s)
  end.

(** An integer literal; a fraction or an exponent is beyond the
    fragment. *)
Definition number (s : string) : res (string * string) :=
  let '(sign, s1) := match s with
                     | String "-" r => ("-"%string, r)
                     | _ => (EmptyString, s)
                     end in
  try (lit, r) <-
    match s1 with
    | EmptyString => Eof
    | String c r =>
        if Ascii.eqb c "0" then Ok (sign +:+ "0", r)
        else if isDigit c then
          let '(ds, r') := digits r in Ok (sign +:+ String c ds, r')
        else invalid c "in numeric literal" r
    end;
  match r with
  | String "." _ | String "e" _ | String "E" _ => Beyond
  | _ => Ok (lit, r)
  end.

Fixpoint elements (pv : string -> res (syntax * string)) (n : nat)
         (acc : list syntax) (s : string) : res (syntax * string) :=
  match n with
  | O => Beyond
  | S n =>
      try (v, s1) <- pv s;
      match skip s1 with
      | EmptyString => Eof
      | String "," s2 => elements pv n (v :: acc) s2
      | String "]" s2 => Ok (SArray (rev (v :: acc)), s2)
      | String c s2 => invalid c "after array element" s2
      end
  end.

Fixpoint members (pv : string -> res (syntax * string)) (n : nat)
         (acc : list (string * syntax)) (s : string) : res (syntax * string) :=
  match n with
  | O => Beyond
  | S n =>
      match skip s with
      | EmptyString => Eof
      | String c r =>
          if Ascii.eqb c dq then
            try (k, s1) <- stringLit r [];
            match skip s1 with
            | EmptyString => Eof
            | String ":" s2 =>
                try (v, s3) <- pv s2;
                match skip s3 with
                | EmptyString => Eof
                | String "," s4 => members pv n ((k, v) :: acc) s4
                | String "}" s4 => Ok (SObject (rev ((k, v) :: acc)), s4)
                | String c s4 => invalid c "after object key:value pair" s4
                end
            | String c s2 => invalid c "after object key" s2
            end
          else invalid c "looking for beginning of object key string" r
      end
  end.

Fixpoint value (fuel : nat) (s : string) : res (syntax * string) :=
  match fuel with
  | O => Beyond
  | S fuel =>
      match skip s with
      | EmptyString => Eof
      | String c r =>
          if Ascii.eqb c "{" then
            match skip r with
            | String "}" r' => Ok (SObject [], r')
            | _ => members (value fuel) (S (String.length r)) [] r
            end
          else if Ascii.eqb c "[" then
            match skip r with
            | String "]" r' => Ok (SArray [], r')
            | _ => elements (value fuel) (S (String.length r)) [] r
            end
          else if Ascii.eqb c dq then
            try (s', r') <- stringLit r []; Ok (SString s', r')
          else if Ascii.eqb c "t" then
            try r' <- literal "true" "rue" r; Ok (SBool true, r')
          else if Ascii.eqb c "f" then
            try r' <- literal "false" "alse" r; Ok (SBool false, r')
          else if Ascii.eqb c "n" then
            try r' <- literal "null" "ull" r; Ok (SNull, r')
          else if Ascii.eqb c "-" || isDigit c then
            try (lit, r') <- number (String c r); Ok (SNumber lit, r')
          else invalid c "looking for beginning of value" r
      end
  end.

Definition document (s : string) : res syntax :=
  try (v, rest) <- value (S (String.length s)) s;
  match skip rest with
  | EmptyString => Ok v
  | String c r => invalid c "after top-level value" r
  end.

Definition beyond : error :=
  SyntaxError "Beyond: input outside the fragment of the reference decoder" 0.

(** The scanner's verdict as [json.Unmarshal] reports it. *)
Definition scan (b : bytes) : syntax + error :=
  let s := string_of_list_byte b in
  match document s with
  | Ok v => inl v
  | Bad msg rest =>
      inr (SyntaxError msg (Z.of_nat (String.length s - String.length rest)))
  | Eof => inr (SyntaxError "unexpected end of JSON input"
                            (Z.of_nat (String.length s)))
  | Beyond => inr beyond
  end.

(** *** Reading a quoted text back *)

Definition unhex (c : ascii) : option N :=
  if isDigit c then Some (code c - 48)%N
  else if ((97 <=? code c) && (code c <=? 102))%N then Some (code c - 87)%N
  else None.

Definition unescapeQuoted (e : ascii) : option ascii :=
  if Ascii.eqb e dq then Some dq
  else if Ascii.eqb e bsl then Some bsl
  else match e with
       | "a" => Some "007"
       | "b" => Some "008"
       | "f" => Some "012"
       | "n" => Some "010"
       | "r" => Some "013"
       | "t" => Some "009"
       | "v" => Some "011"
       | _ => None
       end%char.

(** The inverse of [quoteBody]. *)
Fixpoint unquoteBody (s : string) : option string :=
  match s with
  | EmptyString => Some EmptyString
  | String c r =>
      if Ascii.eqb c bsl then
        match r with
        | String "x" (String h (String l r')) =>
            match unhex h, unhex l with
            | Some a, Some b =>
                String (ascii_of_N (16 * a + b)) <$> unquoteBody r'
            | _, _ => None
            end
        | String e r' =>
            match unescapeQuoted e with
            | Some ch => String ch <$> unquoteBody r'
            | None => None
            end
        | EmptyString => None
        end
      else String c <$> unquoteBody r
  end.

(** *** Storing into Go values *)

Fixpoint digitsZ (s : string) (acc : Z) : Z :=
  match s with
  | String c r => digitsZ r (10 * acc + Z.of_N (code c) - 48)
  | EmptyString => acc
  end.

(** The value of an integer literal. *)
Definition literalZ (lit : string) : Z :=
  match lit with
  | String "-" r => - digitsZ r 0
  | _ => digitsZ lit 0
  end.

Definition isNegative (lit : string) : bool :=
  match lit with
  | String "-" _ => true
  | _ => false
  end.

(** [strconv.ParseFloat] on an integer literal that a float64 holds
    exactly. *)
Definition parseFloat (lit : string) : option float :=
  let m := Z.abs (literalZ lit) in
  if m <? 2 ^ 53 then
    let f := PrimFloat.of_uint63 (Uint63.of_Z m) in
    Some (if isNegative lit then PrimFloat.opp f else f)
  else None.

Fixpoint toInterface (j : syntax) : option Value :=
  match j with
  | SNull => Some VNil
  | SBool b => Some (VBool b)
  | SNumber lit => VFloat64 <$> parseFloat lit
  | SString s => Some (VString s)
  | SArray l =>
      VSlice <$>
        (fix each (l : list syntax) : option (list Value) :=
           match l with
           | [] => Some []
           | x :: l' =>
               match toInterface x, each l' with
               | Some v, Some vs => Some (v :: vs)
               | _, _ => None
               end
           end) l
  | SObject kvs =>
      VMap <$>
        (fix each (kvs : list (string * syntax)) (acc : gmap string Value)
           : option (gmap string Value) :=
           match kvs with
           | [] => Some acc
           | (k, x) :: kvs' =>
               match toInterface x with
               | Some v => each kvs' (<[k := v]> acc)
               | None => None
               end
           end) kvs ∅
  end.

(** The word [encoding/json] uses for a value it could not store. *)
Definition kind (j : syntax) : string :=
  match j with
  | SNull => "null"
  | SBool _ => "bool"
  | SNumber _ => "number"
  | SString _ => "string"
  | SArray _ => "array"
  | SObject _ => "object"
  end.

(** [json.Unmarshal] into a nil [map[string]interface{}]. *)
Definition Unmarshal_map (b : bytes) : gmap string Value * option error :=
  match scan b with
  | inr e => (∅, Some e)
  | inl SNull => (∅, None)
  | inl (SObject kvs) =>
      match toInterface (SObject kvs) with
      | Some (VMap m) => (m, None)
      | _ => (∅, Some beyond)
      end
  | inl j => (∅, Some (UnmarshalTypeError (kind j) EmptyString
                         "map[string]interface {}"))
  end.

Definition lower (c : ascii) : ascii :=
  if ((65 <=? code c) && (code c <=? 90))%N then ascii_of_N (code c + 32)
  else c.

Fixpoint fold (s : string) : string :=
  match s with
  | String c r => String (lower c) (fold r)
  | EmptyString => EmptyString
  end.

(** Which field of a struct a key names: the exact name first, then the
    name up to the case of ASCII letters. *)
Definition field (names : list string) (key : string) : option string :=
  match List.find (String.eqb key) names with
  | Some f => Some f
  | None => List.find (fun f => String.eqb (fold f) (fold key)) names
  end.

(** The decoder keeps the first error and goes on. *)
Definition saveError (saved : option error) (e : error) : option error :=
  match saved with
  | Some _ => saved
  | None => Some e
  end.

Definition mismatch (j : syntax) (struct fld type : string) : error :=
  UnmarshalTypeError (kind j) (struct +:+ "." +:+ fld) type.

Definition storePod (st : KubernetesPodInfo * option error)
           (kv : string * syntax) : KubernetesPodInfo * option error :=
  let '(p, saved) := st in
  let '(k, j) := kv in
  match field ["PodName"; "PodNamespace"]%string k, j with
  | None, _ | Some _, SNull => st
  | Some f, SString s =>
      if String.eqb f "PodName"
      then ({| PodName := s; PodNamespace := PodNamespace p |}, saved)
      else ({| PodName := PodName p; PodNamespace := s |}, saved)
  | Some f, _ => (p, saveError saved (mismatch j "KubernetesPodInfo" f "string"))
  end.

(** [json.Unmarshal] into a zero [cns.KubernetesPodInfo]. *)
Definition Unmarshal_pod (b : bytes) : KubernetesPodInfo * option error :=
  match scan b with
  | inr e => (KubernetesPodInfo_zero, Some e)
  | inl SNull => (KubernetesPodInfo_zero, None)
  | inl (SObject kvs) => fold_left storePod kvs (KubernetesPodInfo_zero, None)
  | inl j => (KubernetesPodInfo_zero,
              Some (UnmarshalTypeError (kind j) EmptyString
                      "cns.KubernetesPodInfo"))
  end.

Definition inInt64 (z : Z) : bool := (- 2 ^ 63 <=? z) && (z <? 2 ^ 63).

Definition storeError (st : types_Error * option error)
           (kv : string * syntax) : types_Error * option error :=
  let '(e, saved) := st in
  let '(k, j) := kv in
  match field ["Fset"; "Pos"; "Msg"; "Soft"]%string k, j with
  | None, _ => st
  | Some f, SNull =>
      (* null clears a pointer and leaves other fields alone *)
      if String.eqb f "Fset"
      then ({| Fset := false; Pos := Pos e; Msg := Msg e; Soft := Soft e |},
            saved)
      else st
  | Some f, _ =>
      if String.eqb f "Fset" then
        (* the pointer is allocated before the value is looked at *)
        let e' := {| Fset := true; Pos := Pos e; Msg := Msg e;
                     Soft := Soft e |} in
        match j with
        | SObject _ => (e', saved)
        | _ => (e', saveError saved (mismatch j "Error" f "token.FileSet"))
        end
      else if String.eqb f "Pos" then
        match j with
        | SNumber lit =>
            if inInt64 (literalZ lit)
            then ({| Fset := Fset e; Pos := literalZ lit; Msg := Msg e;
                     Soft := Soft e |}, saved)
            else (e, saveError saved
                       (UnmarshalTypeError ("number " +:+ lit)
                          "Error.Pos" "token.Pos"))
        | _ => (e, saveError saved (mismatch j "Error" f "token.Pos"))
        end
      else if String.eqb f "Msg" then
        match j with
        | SString s => ({| Fset := Fset e; Pos := Pos e; Msg := s;
                           Soft := Soft e |}, saved)
        | _ => (e, saveError saved (mismatch j "Error" f "string"))
        end
      else
        match j with
        | SBool b => ({| Fset := Fset e; Pos := Pos e; Msg := Msg e;
                         Soft := b |}, saved)
        | _ => (e, saveError saved (mismatch j "Error" f "bool"))
        end
  end.

(** [json.Unmarshal] into a [types.Error]. *)
Definition Unmarshal_Error (b : bytes) (e : types_Error)
  : types_Error * option error :=
  match scan b with
  | inr err => (e, Some err)
  | inl SNull => (e, None)
  | inl (SObject kvs) => fold_left storeError kvs (e, None)
  | inl j => (e, Some (UnmarshalTypeError (kind j) EmptyString "types.Error"))
  end.

(** *** Encoding *)

(** One byte of a string as [json.Marshal] writes it (HTML-safe).  The
    control characters other than newline, return and tab, and the bytes
    above 0x7f, are beyond the fragment. *)
Definition encodeByte (c : ascii) : option string :=
  if Ascii.eqb c dq then Some (String bsl (str dq))
  else if Ascii.eqb c bsl then Some (String bsl (str bsl))
  else match code c with
       | 10%N => Some (String bsl "n")
       | 13%N => Some (String bsl "r")
       | 9%N => Some (String bsl "t")
       | 60%N => Some (String bsl "u003c")
       | 62%N => Some (String bsl "u003e")
       | 38%N => Some (String bsl "u0026")
       | n => if ((32 <=? n) && (n <=? 127))%N then Some (str c) else None
       end.

Fixpoint encodeBody (s : string) : option string :=
  match s with
  | EmptyString => Some EmptyString
  | String c r =>
      match encodeByte c, encodeBody r with
      | Some x, Some y => Some (x +:+ y)
      | _, _ => None
      end
  end.

Definition encodeString (s : string) : option string := q <$> encodeBody s.

(** A float64 that is an integer below 2^53 in magnitude is written in
    plain decimal. *)
Definition encodeFloat (f : float) : option string :=
  match Prim2SF f with
  | S754_zero neg => Some (if neg then "-0" else "0")%string
  | S754_finite neg m e =>
      let z := if 0 <=? e then Z.pos m * 2 ^ e
               else if Z.pos m mod 2 ^ (- e) =? 0 then Z.pos m / 2 ^ (- e)
               else 2 ^ 53 in
      if z <? 2 ^ 53 then Some (pretty (if neg then - z else z)) else None
  | _ => None
  end.

Fixpoint insertKey (kv : string * option string)
         (l : list (string * option string)) : list (string * option string) :=
  match l with
  | [] => [kv]
  | kv' :: l' => if String.leb kv.1 kv'.1 then kv :: l
                 else kv' :: insertKey kv l'
  end.

(** The members of an object, keys in increasing order, comma-separated. *)
Fixpoint joinMembers (l : list (string * option string)) : option string :=
  match l with
  | [] => Some EmptyString
  | (k, ov) :: l' =>
      match encodeString k, ov, joinMembers l' with
      | Some k', Some v, Some rest =>
          Some (k' +:+ ":" +:+ v +:+
                match l' with [] => EmptyString | _ => "," +:+ rest end)
      | _, _, _ => None
      end
  end.

Fixpoint joinElements (l : list (option string)) : option string :=
  match l with
  | [] => Some EmptyString
  | ov :: l' =>
      match ov, joinElements l' with
      | Some v, Some rest =>
          Some (v +:+ match l' with [] => EmptyString | _ => "," +:+ rest end)
      | _, _ => None
      end
  end.

Fixpoint encode (v : Value) : option string :=
  match v with
  | VNil => Some "null"%string
  | VBool true => Some "true"%string
  | VBool false => Some "false"%string
  | VFloat64 f => encodeFloat f
  | VString s => encodeString s
  | VSlice l =>
      (fun body => "[" +:+ body +:+ "]") <$> joinElements (List.map encode l)
  | VMap m =>
      (fun body => "{" +:+ body +:+ "}") <$>
        joinMembers (map_fold (fun k x acc => insertKey (k, encode x) acc) [] m)
  end.

(** [json.Marshal] of a [map[string]interface{}]. *)
Definition Marshal (m : gmap string Value) : bytes * option error :=
  match encode (VMap m) with
  | Some s => (list_byte_of_string s, None)
  | None => ([], Some beyond)
  end.

(** *** Error texts and the plugin environment *)

Definition errnoText (e : Errno) : string :=
  match e with
  | ENOENT => "no such file or directory"
  | EACCES => "permission denied"
  | ENOTDIR => "not a directory"
  | EIO => "input/output error"
  | ENOEXEC => "exec format error"
  | EPIPE => "broken pipe"
  end.

(** The method [Error()].  A [types.Error] without file set and position
    prints the invalid position as a dash. *)
Definition ErrorText (e : error) : string :=
  match e with
  | errorString s => s
  | PathError op path errno => op +:+ " " +:+ path +:+ ": " +:+ errnoText errno
  | ExitError status => "exit status " +:+ pretty status
  | ExecError name cause => "exec: " +:+ Quote name +:+ ": " +:+ cause
  | SyntaxError msg _ => msg
  | UnmarshalTypeError v EmptyString t =>
      "json: cannot unmarshal " +:+ v +:+ " into Go value of type " +:+ t
  | UnmarshalTypeError v f t =>
      "json: cannot unmarshal " +:+ v +:+ " into Go struct field " +:+ f
      +:+ " of type " +:+ t
  | TypesError te => "-: " +:+ Msg te
  end.

Fixpoint join (sep : string) (l : list string) : string :=
  match l with
  | [] => EmptyString
  | [x] => x
  | x :: l' => x +:+ sep +:+ join sep l'
  end.

(** [stringify] of package [invoke]. *)
Definition stringify (pluginArgs : list (string * string)) : string :=
  join ";" (List.map (fun kv => kv.1 +:+ "=" +:+ kv.2) pluginArgs).

(** [AsEnv] of [invoke.Args]: the environment of the process followed by
    the six CNI variables. *)
Definition environment (environ : list string) (a : invoke_Args) : list string :=
  environ ++
  [ "CNI_COMMAND=" +:+ Command a;
    "CNI_CONTAINERID=" +:+ ContainerID a;
    "CNI_NETNS=" +:+ NetNS a;
    "CNI_ARGS=" +:+ stringify (PluginArgs a);
    "CNI_IFNAME=" +:+ IfName a;
    "CNI_PATH=" +:+ Path a ].

(** The library of a process whose environment is [environ]. *)
Definition lib (environ : list string) : GoLib :=
  {| json_Unmarshal_map := Unmarshal_map;
     json_Unmarshal_pod := Unmarshal_pod;
     json_Unmarshal_Error := Unmarshal_Error;
     json_Marshal := Marshal;
     strconv_Quote := Quote;
     Error_ := ErrorText;
     AsEnv := environment environ |}.

End Ref.

(* ================================================================== *)
(** ** Observations on traces and documents *)

(** The commands a trace handed to [Run], one for each call: a subprocess
    each when the start succeeds, none when [Run] fails to start it. *)
Definition spawns (t : list event) : list Cmd :=
  omap (fun ev => match ev with EvRun c => Some c | _ => None end) t.

(** Every subprocess started by [m] satisfies [P]. *)
Definition spawnsAll (P : Cmd -> Prop) {A} (m : M A) : Prop :=
  Forall P (spawns (trace m)).

(** The files a trace read.  [getNetworkConf] reads its file before
    anything else, so the flattener was invoked exactly when its file
    appears here. *)
Definition reads (t : list event) : list string :=
  omap (fun ev => match ev with EvReadFile p => Some p | _ => None end) t.

Definition isString (v : Value) : bool :=
  match v with
  | VString _ => true
  | _ => false
  end.

(** A decoded document whose plugin list is absent, not a list or empty,
    or whose version or name is absent or not a string. *)
Definition malformed (m : gmap string Value) : bool :=
  match index m PluginsStr with
  | VSlice (_ :: _) => false
  | _ => true
  end
  || negb (isString (index m VersionStr))
  || negb (isString (index m NameStr)).

(** [sub] occurs in [s] as a contiguous run of bytes. *)
Fixpoint contains (sub s : string) : bool :=
  String.prefix sub s ||
  match s with
  | String _ r => contains sub r
  | EmptyString => false
  end.

(** The binary-presence check of the update path fails. *)
Definition binaryMissing (W : World) : bool :=
  match os_Stat W pluginPath with
  | Some err => os_IsNotExist err
  | None => false
  end.

(** The same world, except that [os.Stat] succeeds everywhere. *)
Definition statSucceeds (W : World) : World :=
  {| interfaceExists := interfaceExists W;
     os_Stat := fun _ => None;
     ioutil_ReadFile := ioutil_ReadFile W;
     Cmd_Run := Cmd_Run W |}.

Definition errBinary : error :=
  errorString
    "[Azure CNS] Unable to find azure-vnet under /opt/cni/bin/. Cannot continue".

Definition errIPAddress : error :=
  errorString
    "[Azure CNS] IPAddress in IPConfiguration of createNetworkContainerRequest is nil".

Definition requestIP (req : CreateNetworkContainerRequest) : string :=
  IPAddress (IPSubnet_ (IPConfiguration_ req)).

(** What [getNetworkConf] returns for the flat map [flat]. *)
Definition marshalled (L : GoLib) (flat : gmap string Value)
  : bytes * option error :=
  let '(netConfig, err) := json_Marshal L flat in
  match err with
  | Some e => ([], Some e)
  | None => (netConfig, None)
  end.

(** The message [pluginErr] writes when the output does not decode. *)
Definition diagnostic (L : GoLib) (output : bytes) (perr : error) : string :=
  "netplugin failed but error parsing its diagnostic message "
  +:+ strconv_Quote L (string_of_list_byte output) +:+ ": " +:+ Error_ L perr.

(** A byte that quoting leaves alone: printable ASCII other than the
    double quote and the backslash. *)
Definition plain (c : ascii) : bool :=
  negb (Ascii.eqb c Ref.dq) && negb (Ascii.eqb c Ref.bsl)
  && ((32 <=? Ref.code c) && (Ref.code c <=? 126))%N.

(* ================================================================== *)
(** ** Sample hosts *)

Module Sample.
Import Ref.

(** A host: its files, the interfaces that exist, and how the plugin
    binary behaves. *)
Record Host := {
  files      : gmap string bytes;
  interfaces : list string;
  plugin     : Cmd -> bytes * option error
}.

Definition world (h : Host) : World :=
  {| interfaceExists := fun id => (bool_decide (id ∈ interfaces h), None);
     os_Stat := fun p =>
       match files h !! p with
       | Some _ => None
       | None => Some (PathError "stat" p ENOENT)
       end;
     ioutil_ReadFile := fun p =>
       match files h !! p with
       | Some c => (c, None)
       | None => ([], Some (PathError "open" p ENOENT))
       end;
     Cmd_Run := plugin h |}.

Definition text (s : string) : bytes := list_byte_of_string s.

(** The configuration list with one plugin entry. *)
Definition conflist : bytes :=
  text ("{" +:+ q "cniVersion" +:+ ":" +:+ q "0.4.0" +:+ ","
        +:+ q "name" +:+ ":" +:+ q "azure" +:+ ","
        +:+ q "plugins" +:+ ":[{" +:+ q "type" +:+ ":" +:+ q "vnet" +:+ "}]}").

(** The same with an empty plugin list. *)
Definition conflistNoPlugins : bytes :=
  text ("{" +:+ q "cniVersion" +:+ ":" +:+ q "0.4.0" +:+ ","
        +:+ q "name" +:+ ":" +:+ q "azure" +:+ ","
        +:+ q "plugins" +:+ ":[]}").

(** The flat document expected for [conflist]. *)
Definition flat : gmap string Value :=
  {[ "type"%string := VString "vnet";
     "cniVersion"%string := VString "0.4.0";
     "name"%string := VString "azure" ]}.

Definition flatText : bytes :=
  text ("{" +:+ q "cniVersion" +:+ ":" +:+ q "0.4.0" +:+ ","
        +:+ q "name" +:+ ":" +:+ q "azure" +:+ ","
        +:+ q "type" +:+ ":" +:+ q "vnet" +:+ "}").

Definition podContext : bytes :=
  text ("{" +:+ q "PodName" +:+ ":" +:+ q "web-0" +:+ ","
        +:+ q "PodNamespace" +:+ ":" +:+ q "default" +:+ "}").

Definition request (type ip : string) (ctx : bytes)
  : CreateNetworkContainerRequest :=
  {| NetworkContainerType := type;
     NetworkContainerid := "eth1";
     IPConfiguration_ := {| IPSubnet_ := {| IPAddress := ip |} |};
     OrchestratorContext := ctx |}.

(** A plugin that exits cleanly after printing a line. *)
Definition pluginOk (c : Cmd) : bytes * option error :=
  (text "done", None).

(** A plugin that exits with status 1 after printing [out]. *)
Definition pluginFails (out : bytes) (c : Cmd) : bytes * option error :=
  (out, Some (ExitError 1)).

Definition host (conf : bytes) (p : Cmd -> bytes * option error) : Host :=
  {| files := {[ pluginPath := text "ELF"; confPath := conf ]};
     interfaces := ["eth1"%string];
     plugin := p |}.

(** A host without the plugin binary and without interfaces. *)
Definition bare : Host :=
  {| files := ∅; interfaces := []; plugin := pluginOk |}.

(** A world in which the plugin binary cannot be examined. *)
Definition statDenied : World :=
  {| interfaceExists := fun _ => (true, None);
     os_Stat := fun p => Some (PathError "stat" p EACCES);
     ioutil_ReadFile := ioutil_ReadFile (world (host conflist pluginOk));
     Cmd_Run := pluginOk |}.

Definition boom : bytes :=
  text ("{" +:+ q "msg" +:+ ":" +:+ q "boom" +:+ "}").

(** Plain text followed by a newline. *)
Definition oops : bytes := text ("oops" +:+ str "010").

End Sample.

(* ================================================================== *)
(** ** Further observations *)

(** The paths a trace examined with [os.Stat]. *)
Definition stats (t : list event) : list string :=
  omap (fun ev => match ev with EvStat p => Some p | _ => None end) t.

(** The container ids a trace looked up with [interfaceExists]. *)
Definition lookups (t : list event) : list string :=
  omap (fun ev => match ev with EvInterfaceExists id => Some id | _ => None end) t.

(** Every event of [m] satisfies [P]. *)
Definition traceAll (P : event -> Prop) {A} (m : M A) : Prop :=
  Forall P (trace m).

Definition isLog (ev : event) : bool :=
  match ev with
  | EvLog _ _ => true
  | _ => false
  end.

(** A stretch of a trace that holds log lines only. *)
Definition logsOnly (t : list event) : bool := forallb isLog t.

(** The order of the effects in a trace of the update path: log lines,
    the stat of the plugin binary, and then either log lines only, or log
    lines, the read of the configuration list, and then either log lines
    only, or log lines, one call of [Run] on the plugin binary and log
    lines. *)
Definition statReadRun (t : list event) : Prop :=
  exists t1 rest,
    t = t1 ++ EvStat pluginPath :: rest
    /\ logsOnly t1 = true
    /\ (logsOnly rest = true
        \/ exists t2 rest',
             rest = t2 ++ EvReadFile confPath :: rest'
             /\ logsOnly t2 = true
             /\ (logsOnly rest' = true
                 \/ exists t3 c t4,
                      rest' = t3 ++ EvRun c :: t4
                      /\ logsOnly t3 = true
                      /\ logsOnly t4 = true
                      /\ cmd_Path c = pluginPath)).

Definition isLookup (ev : event) : bool :=
  match ev with
  | EvInterfaceExists _ => true
  | _ => false
  end.

(** A decoded document that passes every assertion of [getNetworkConf]:
    the plugin list is a list that starts with an object, and version and
    name are strings. *)
Definition wellShaped (m : gmap string Value) : bool :=
  match index m PluginsStr with
  | VSlice (VMap _ :: _) => true
  | _ => false
  end
  && isString (index m VersionStr)
  && isString (index m NameStr).

(** The runtime configuration the update path builds for a request and its
    decoded pod: no container id, no namespace path, the network container
    id as interface name (line 71 with [buildCNIRuntimeConf]). *)
Definition updateRuntime (req : CreateNetworkContainerRequest)
           (pod : KubernetesPodInfo) : RuntimeConf :=
  {| rt_ContainerID := EmptyString;
     rt_NetNS := EmptyString;
     rt_IfName := NetworkContainerid req;
     rt_Args := [("K8S_POD_NAMESPACE"%string, PodNamespace pod);
                 ("K8S_POD_NAME"%string, PodName pod)] |}.

(** The command [updateNetwork] runs for [rt] and [netconf]. *)
Definition pluginCmd (L : GoLib) (rt : RuntimeConf) (netconf : bytes) : Cmd :=
  {| cmd_Path := pluginPath;
     cmd_Env := AsEnv L (args "UPDATE" rt);
     cmd_Stdin := netconf |}.

(** All three precondition checks of the update path pass. *)
Definition checksPass (L : GoLib) (W : World)
           (req : CreateNetworkContainerRequest) : Prop :=
  binaryMissing W = false
  /\ requestIP req <> EmptyString
  /\ (json_Unmarshal_pod L (OrchestratorContext req)).2 = None.

(** The same world, except that [interfaceExists] reports no error. *)
Definition lookupErrorDropped (W : World) : World :=
  {| interfaceExists := fun id => ((interfaceExists W id).1, None);
     os_Stat := os_Stat W;
     ioutil_ReadFile := ioutil_ReadFile W;
     Cmd_Run := Cmd_Run W |}.

(** More sample inputs. *)
Module More.
Import Ref.

(** A list with two plugin entries and a further top-level member; the
    first entry is the one of [Sample.conflist]. *)
Definition conflistTwo : bytes :=
  Sample.text
    ("{" +:+ q "cniVersion" +:+ ":" +:+ q "0.4.0" +:+ ","
     +:+ q "name" +:+ ":" +:+ q "azure" +:+ ","
     +:+ q "disableCheck" +:+ ":true,"
     +:+ q "plugins" +:+ ":[{" +:+ q "type" +:+ ":" +:+ q "vnet" +:+ "},{"
     +:+ q "type" +:+ ":" +:+ q "portmap" +:+ "}]}").

(** A list whose plugin entry brings its own name and version. *)
Definition conflistOwnName : bytes :=
  Sample.text
    ("{" +:+ q "cniVersion" +:+ ":" +:+ q "0.4.0" +:+ ","
     +:+ q "name" +:+ ":" +:+ q "azure" +:+ ","
     +:+ q "plugins" +:+ ":[{" +:+ q "type" +:+ ":" +:+ q "vnet" +:+ ","
     +:+ q "name" +:+ ":" +:+ q "inner" +:+ ","
     +:+ q "cniVersion" +:+ ":" +:+ q "0.1.0" +:+ "}]}").

(** The plugin entry of [conflistOwnName]. *)
Definition ownEntry : gmap string Value :=
  {[ "type"%string := VString "vnet";
     "name"%string := VString "inner";
     "cniVersion"%string := VString "0.1.0" ]}.

(** A list whose first plugin entry is a string, and one without name. *)
Definition conflistStringEntry : bytes :=
  Sample.text
    ("{" +:+ q "cniVersion" +:+ ":" +:+ q "0.4.0" +:+ ","
     +:+ q "name" +:+ ":" +:+ q "azure" +:+ ","
     +:+ q "plugins" +:+ ":[" +:+ q "vnet" +:+ "]}").

Definition conflistNoName : bytes :=
  Sample.text
    ("{" +:+ q "cniVersion" +:+ ":" +:+ q "0.4.0" +:+ ","
     +:+ q "plugins" +:+ ":[{" +:+ q "type" +:+ ":" +:+ q "vnet" +:+ "}]}").

(** A host with the plugin binary and the interface but no configuration
    list. *)
Definition noConf : Sample.Host :=
  {| Sample.files := {[ pluginPath := Sample.text "ELF" ]};
     Sample.interfaces := ["eth1"%string];
     Sample.plugin := Sample.pluginOk |}.

(** A world in which the interface lookup answers yes together with an
    error. *)
Definition lookupFails : World :=
  {| interfaceExists := fun _ => (true, Some (errorString "netlink: timeout"));
     os_Stat := os_Stat (Sample.world (Sample.host Sample.conflist Sample.pluginOk));
     ioutil_ReadFile :=
       ioutil_ReadFile (Sample.world (Sample.host Sample.conflist Sample.pluginOk));
     Cmd_Run := Sample.pluginOk |}.

Definition kubeRequest : CreateNetworkContainerRequest :=
  Sample.request "Kubernetes" "10.0.0.4" Sample.podContext.

Definition pod : KubernetesPodInfo :=
  {| PodName := "web-0"; PodNamespace := "default" |}.

(** A file that holds the literal null, and one that holds an array. *)
Definition confNull : bytes := Sample.text "null".
Definition confArray : bytes := Sample.text "[]".

(** A plugin binary that cannot be started. *)
Definition pluginNotStarted (c : Cmd) : bytes * option error :=
  ([], Some (PathError "fork/exec" pluginPath ENOEXEC)).

End More.

(* ================================================================== *)
(** ** Laws of the effect monad *)

Lemma result_bind {A B} (m : M A) (f : A -> M B) :
  result (bind m f) =
  match result m with
  | Returns a => result (f a)
  | Panics p => Panics p
  end.
Proof.
  destruct m as [[a | p] t]; simpl; [| reflexivity].
  destruct (f a); reflexivity.
Qed.

Lemma trace_bind {A B} (m : M A) (f : A -> M B) :
  trace (bind m f) =
  trace m ++ match result m with
             | Returns a => trace (f a)
             | Panics _ => []
             end.
Proof.
  destruct m as [[a | p] t]; simpl.
  - destruct (f a); reflexivity.
  - symmetry. apply app_nil_r.
Qed.

Lemma bind_emit {B} (e : event) (k : M B) :
  bind (emit e) (fun _ => k) = (result k, e :: trace k).
Proof. destruct k. reflexivity. Qed.

Lemma spawns_app (t1 t2 : list event) :
  spawns (t1 ++ t2) = spawns t1 ++ spawns t2.
Proof. apply omap_app. Qed.

Lemma reads_app (t1 t2 : list event) :
  reads (t1 ++ t2) = reads t1 ++ reads t2.
Proof. apply omap_app. Qed.

(* ================================================================== *)
(** ** Interpreting the plugin's exit: [pluginErr] *)

(** An error that is not an exit error passes through untouched, whatever
    its dynamic type. *)
Lemma pluginErr_passthrough (L : GoLib) (err : option error) (output : bytes) :
  isExitError err = false -> pluginErr L err output = err.
Proof. intros H. unfold pluginErr. rewrite H. reflexivity. Qed.

(** On an exit error the result is always a [types.Error]. *)
Lemma pluginErr_exit_types (L : GoLib) (status : Z) (output : bytes) :
  isTypesError (pluginErr L (Some (ExitError status)) output) = true.
Proof.
  unfold pluginErr. simpl.
  destruct (json_Unmarshal_Error L output types_Error_zero) as [emsg [pe |]];
    reflexivity.
Qed.

(** C5: when the subprocess ends with an exit error and its captured output
    decodes into the error struct without a decoding error, [pluginErr]
    returns that struct as the error, so its message is exactly the message
    of the payload. *)
Theorem pluginErr_structured (L : GoLib) (status : Z) (output : bytes)
        (payload : types_Error) :
  json_Unmarshal_Error L output types_Error_zero = (payload, None) ->
  pluginErr L (Some (ExitError status)) output = Some (TypesError payload).
Proof.
  intros Hdec. unfold pluginErr. simpl. rewrite Hdec. reflexivity.
Qed.

(** A plugin that exits with status 1 and prints the object with the one
    member msg = boom: the error returned carries exactly the message
    boom. *)
Lemma pluginErr_structured_boom :
  json_Unmarshal_Error (Ref.lib []) Sample.boom types_Error_zero
  = ({| Fset := false; Pos := 0; Msg := "boom"; Soft := false |}, None)
  /\ pluginErr (Ref.lib []) (Some (ExitError 1)) Sample.boom
     = Some (TypesError {| Fset := false; Pos := 0; Msg := "boom";
                           Soft := false |}).
Proof.
  split; [reflexivity |].
  apply (pluginErr_structured (Ref.lib []) 1 Sample.boom). reflexivity.
Defined.

(** The struct is that of [go/types]: its method [Error()] puts the
    position, here the invalid one, before the message. *)
Example boom_error_text :
  Ref.ErrorText <$> pluginErr (Ref.lib []) (Some (ExitError 1)) Sample.boom
  = Some "-: boom"%string.
Proof. reflexivity. Qed.

(** C6, as the code has it: when the subprocess ends with an exit error and
    its captured output does not decode, [pluginErr] returns a
    [types.Error] whose message is the fixed prefix, the captured output in
    quoted form (the verb q), a colon and the text of the decoding error;
    the other fields are as the decoder left them. *)
Theorem pluginErr_unparsed (L : GoLib) (status : Z) (output : bytes)
        (left : types_Error) (perr : error) :
  json_Unmarshal_Error L output types_Error_zero = (left, Some perr) ->
  pluginErr L (Some (ExitError status)) output
  = Some (TypesError {| Fset := Fset left; Pos := Pos left;
                        Msg := diagnostic L output perr;
                        Soft := Soft left |}).
Proof.
  intros Hdec. unfold pluginErr, diagnostic. simpl. rewrite Hdec. reflexivity.
Qed.

(** The plugin prints the four letters oops and a newline, and exits with
    status 1.  In the message the newline is the two bytes backslash and
    n. *)
Lemma pluginErr_unparsed_oops :
  json_Unmarshal_Error (Ref.lib []) Sample.oops types_Error_zero
  = (types_Error_zero,
     Some (SyntaxError "invalid character 'o' looking for beginning of value" 1))
  /\ pluginErr (Ref.lib []) (Some (ExitError 1)) Sample.oops
     = Some (TypesError
               {| Fset := false; Pos := 0;
                  Msg := "netplugin failed but error parsing its diagnostic message "
                         +:+ Ref.q "oops\n"
                         +:+ ": invalid character 'o' looking for beginning of value";
                  Soft := false |}).
Proof.
  split; [reflexivity |].
  exact (pluginErr_unparsed (Ref.lib []) 1 Sample.oops types_Error_zero
           (SyntaxError "invalid character 'o' looking for beginning of value" 1)
           eq_refl).
Defined.

(** C6, as stated, fails: for the output oops-newline the message holds the
    quoted form, in which the newline is written as a backslash and the
    letter n; the raw output itself does not occur in the message. *)
Lemma pluginErr_unparsed_not_verbatim :
  (json_Unmarshal_Error (Ref.lib []) Sample.oops types_Error_zero).2 <> None
  /\ exists e,
       pluginErr (Ref.lib []) (Some (ExitError 1)) Sample.oops
       = Some (TypesError e)
       /\ contains (string_of_list_byte Sample.oops) (Msg e) = false
       /\ contains (Ref.Quote (string_of_list_byte Sample.oops)) (Msg e) = true.
Proof.
  split; [discriminate |].
  eexists. split; [reflexivity |]. split; vm_compute; reflexivity.
Qed.

(** Quoting leaves a text unchanged between the quotes when every byte is
    printable ASCII other than the double quote and the backslash. *)
Lemma quoteBody_plain (s : string) :
  forallb plain (list_ascii_of_string s) = true -> Ref.quoteBody s = s.
Proof.
  induction s as [| c r IH]; simpl; [reflexivity |].
  intros H. apply andb_prop in H as [Hc Hr].
  unfold plain in Hc.
  apply andb_prop in Hc as [Hq Hp]. apply andb_prop in Hq as [Hq Hb].
  unfold Ref.quoteByte.
  destruct (Ascii.eqb c Ref.dq); [discriminate |].
  destruct (Ascii.eqb c Ref.bsl); [discriminate |].
  rewrite Hp. simpl. rewrite IH by assumption. reflexivity.
Qed.

(** Quoting loses nothing: the quoted text can be read back. *)
Lemma unquoteBody_quoteByte (c : ascii) (r : string) :
  Ref.unquoteBody (Ref.quoteByte c +:+ r) = String c <$> Ref.unquoteBody r.
Proof. destruct c as [[] [] [] [] [] [] [] []]; reflexivity. Qed.

Lemma unquoteBody_quoteBody (s : string) :
  Ref.unquoteBody (Ref.quoteBody s) = Some s.
Proof.
  induction s as [| c s IH]; [reflexivity |].
  change (Ref.quoteBody (String c s))
    with (Ref.quoteByte c +:+ Ref.quoteBody s).
  rewrite unquoteBody_quoteByte, IH. reflexivity.
Qed.

Lemma quoteBody_inj (s t : string) :
  Ref.quoteBody s = Ref.quoteBody t -> s = t.
Proof.
  intros H. apply (f_equal Ref.unquoteBody) in H.
  rewrite !unquoteBody_quoteBody in H. congruence.
Qed.

Lemma append_assoc (s t u : string) : (s +:+ t) +:+ u = s +:+ t +:+ u.
Proof.
  induction s as [| c s IH]; [reflexivity |].
  change (String c ((s +:+ t) +:+ u) = String c (s +:+ t +:+ u)).
  rewrite IH. reflexivity.
Qed.

Lemma prefix_append (s t : string) : String.prefix s (s +:+ t) = true.
Proof.
  induction s as [| c s IH]; simpl; [destruct t; reflexivity |].
  destruct (ascii_dec c c); [exact IH | contradiction].
Qed.

Lemma contains_prefix (sub s : string) :
  String.prefix sub s = true -> contains sub s = true.
Proof. intros H. destruct s; cbn [contains]; rewrite H; reflexivity. Qed.

Lemma contains_append (sub a b : string) :
  contains sub (a +:+ sub +:+ b) = true.
Proof.
  induction a as [| c a IH].
  - change (contains sub (sub +:+ b) = true).
    apply contains_prefix, prefix_append.
  - change (contains sub (String c (a +:+ sub +:+ b)) = true).
    cbn [contains]. rewrite IH. apply orb_true_r.
Qed.

(** When every byte of the output is plain, the message does hold the
    output as it was captured. *)
Lemma diagnostic_plain_verbatim (environ : list string) (output : bytes)
      (perr : error) :
  forallb plain (list_ascii_of_string (string_of_list_byte output)) = true ->
  contains (string_of_list_byte output)
           (diagnostic (Ref.lib environ) output perr) = true.
Proof.
  intros Hplain.
  assert (Hshape : diagnostic (Ref.lib environ) output perr
            = ("netplugin failed but error parsing its diagnostic message "
               +:+ Ref.str Ref.dq)
              +:+ string_of_list_byte output
              +:+ (Ref.str Ref.dq +:+ ": " +:+ Ref.ErrorText perr)).
  { unfold diagnostic. cbn [strconv_Quote Error_ Ref.lib].
    unfold Ref.Quote, Ref.q. rewrite (quoteBody_plain _ Hplain).
    rewrite !append_assoc. reflexivity. }
  rewrite Hshape. apply contains_append.
Qed.

(** C7: when the subprocess exits cleanly, the interpretation is success
    whatever it wrote; [updateNetwork] returns nil and the captured output
    goes nowhere. *)
Theorem clean_exit_success (L : GoLib) (W : World) (rt : RuntimeConf)
        (netconf output : bytes) :
  Cmd_Run W {| cmd_Path := pluginPath;
               cmd_Env := AsEnv L (args "UPDATE" rt);
               cmd_Stdin := netconf |} = (output, None) ->
  pluginErr L None output = None
  /\ result (updateNetwork L W rt netconf) = Returns None.
Proof.
  intros Hrun. split; [reflexivity |].
  unfold updateNetwork, log_Printf. rewrite !bind_emit.
  change "/opt/cni/bin/azure-vnet"%string with pluginPath.
  rewrite Hrun. reflexivity.
Qed.

Lemma clean_exit_success_sample :
  let rt := {| rt_ContainerID := ""; rt_NetNS := ""; rt_IfName := "eth1";
               rt_Args := [] |} in
  pluginErr (Ref.lib []) None (Sample.text "done") = None
  /\ result (updateNetwork (Ref.lib [])
               (Sample.world (Sample.host Sample.conflist Sample.pluginOk))
               rt Sample.flatText) = Returns None.
Proof.
  intros rt.
  apply (clean_exit_success (Ref.lib [])
           (Sample.world (Sample.host Sample.conflist Sample.pluginOk))
           rt Sample.flatText (Sample.text "done")).
  reflexivity.
Defined.

(** C8: an execution error that is not an exit error (the binary could not
    be found or started, I/O on the pipes failed) is returned as it is, and
    what is returned is not a [types.Error]. *)
Theorem pluginErr_execution_error (L : GoLib) (err : error) (output : bytes) :
  executionError err = true ->
  isExitError (Some err) = false ->
  pluginErr L (Some err) output = Some err
  /\ isTypesError (pluginErr L (Some err) output) = false.
Proof.
  intros Hexec Hexit.
  rewrite (pluginErr_passthrough L (Some err) output Hexit).
  split; [reflexivity |].
  destruct err; simpl in *; congruence.
Qed.

Lemma pluginErr_execution_error_sample :
  pluginErr (Ref.lib []) (Some (ExecError "/opt/cni/bin/azure-vnet"
                                          "permission denied")) Sample.boom
  = Some (ExecError "/opt/cni/bin/azure-vnet" "permission denied")
  /\ isTypesError
       (pluginErr (Ref.lib []) (Some (ExecError "/opt/cni/bin/azure-vnet"
                                                "permission denied"))
                  Sample.boom) = false.
Proof.
  apply (pluginErr_execution_error (Ref.lib [])
           (ExecError "/opt/cni/bin/azure-vnet" "permission denied")
           Sample.boom); reflexivity.
Defined.

(* ================================================================== *)
(** ** The request short-circuits: [createOrUpdateInterface] *)

(** C3: for a request of the WebApps type, and for a request whose
    container has no existing interface, [createOrUpdateInterface] returns
    nil; the trace holds no read of the configuration file (the flattener
    was not invoked) and no subprocess. *)
Theorem createOrUpdateInterface_noop (WebApps : string) (L : GoLib) (W : World)
        (req : CreateNetworkContainerRequest) :
  NetworkContainerType req = WebApps
  \/ (interfaceExists W (NetworkContainerid req)).1 = false ->
  result (createOrUpdateInterface WebApps L W req) = Returns None
  /\ reads (trace (createOrUpdateInterface WebApps L W req)) = []
  /\ spawns (trace (createOrUpdateInterface WebApps L W req)) = [].
Proof.
  intros H. unfold createOrUpdateInterface, log_Printf.
  destruct (String.eqb (NetworkContainerType req) WebApps) eqn:Htype.
  - repeat split; reflexivity.
  - destruct H as [H | H].
    + apply String.eqb_eq in H. congruence.
    + destruct (interfaceExists W (NetworkContainerid req)) as [ex err].
      simpl in H. subst ex. repeat split; reflexivity.
Qed.

Lemma createOrUpdateInterface_noop_sample :
  let W := Sample.world Sample.bare in
  let req := Sample.request "Kubernetes" "10.0.0.4" Sample.podContext in
  result (createOrUpdateInterface "WebApps" (Ref.lib []) W req) = Returns None
  /\ reads (trace (createOrUpdateInterface "WebApps" (Ref.lib []) W req)) = []
  /\ spawns (trace (createOrUpdateInterface "WebApps" (Ref.lib []) W req)) = [].
Proof.
  intros W req.
  apply (createOrUpdateInterface_noop "WebApps" (Ref.lib []) W req).
  right. reflexivity.
Defined.

(* ================================================================== *)
(** ** The precondition checks: [createOrUpdateWithOperation] *)

(** The binary is missing: the first check fails, after the log line and
    the stat. *)
Lemma update_binary_missing (L : GoLib) (W : World)
      (req : CreateNetworkContainerRequest) (op : string) :
  binaryMissing W = true ->
  createOrUpdateWithOperation L W req op
  = (Returns (Some errBinary),
     [EvLog "[Azure CNS] createOrUpdateWithOperation called with operation type %v"
            [LString op];
      EvStat pluginPath]).
Proof.
  intros H. unfold createOrUpdateWithOperation, log_Printf.
  unfold binaryMissing, pluginPath in H. rewrite H. reflexivity.
Qed.

(** The binary check passes and the address is empty: the second check
    fails. *)
Lemma update_empty_address (L : GoLib) (W : World)
      (req : CreateNetworkContainerRequest) (op : string) :
  binaryMissing W = false ->
  requestIP req = EmptyString ->
  createOrUpdateWithOperation L W req op
  = (Returns (Some errIPAddress),
     [EvLog "[Azure CNS] createOrUpdateWithOperation called with operation type %v"
            [LString op];
      EvStat pluginPath]).
Proof.
  intros Hb Hip. unfold createOrUpdateWithOperation, log_Printf.
  unfold binaryMissing, pluginPath in Hb. rewrite Hb.
  unfold requestIP in Hip. rewrite Hip. reflexivity.
Qed.

(** The first two checks pass and the context does not decode: the third
    check fails with the decoder's error. *)
Lemma update_bad_context (L : GoLib) (W : World)
      (req : CreateNetworkContainerRequest) (op : string) (e : error) :
  binaryMissing W = false ->
  requestIP req <> EmptyString ->
  (json_Unmarshal_pod L (OrchestratorContext req)).2 = Some e ->
  createOrUpdateWithOperation L W req op
  = (Returns (Some e),
     [EvLog "[Azure CNS] createOrUpdateWithOperation called with operation type %v"
            [LString op];
      EvStat pluginPath;
      EvLog "[Azure CNS] Unmarshalling %s failed with error %v"
            [LString (NetworkContainerType req); LError e]]).
Proof.
  intros Hb Hip Hdec. unfold createOrUpdateWithOperation, log_Printf.
  unfold binaryMissing, pluginPath in Hb. rewrite Hb.
  apply String.eqb_neq in Hip. unfold requestIP in Hip. rewrite Hip.
  destruct (json_Unmarshal_pod L (OrchestratorContext req)) as [pod err].
  simpl in Hdec. subst err. reflexivity.
Qed.

(** C4: if the plugin binary is not present, or the address of the IP
    configuration is empty, or the orchestrator context does not decode,
    [createOrUpdateWithOperation] returns an error and starts no
    subprocess.  The checks come in that order: a missing binary is
    reported whatever the rest of the request; an empty address is
    reported once the binary check has passed; the decoder's error is
    reported once both have passed. *)
Theorem update_preconditions (L : GoLib) (W : World)
        (req : CreateNetworkContainerRequest) (op : string) :
  binaryMissing W = true
  \/ requestIP req = EmptyString
  \/ (json_Unmarshal_pod L (OrchestratorContext req)).2 <> None ->
  (exists e, result (createOrUpdateWithOperation L W req op) = Returns (Some e))
  /\ spawns (trace (createOrUpdateWithOperation L W req op)) = []
  /\ (binaryMissing W = true ->
      result (createOrUpdateWithOperation L W req op) = Returns (Some errBinary))
  /\ (binaryMissing W = false -> requestIP req = EmptyString ->
      result (createOrUpdateWithOperation L W req op)
      = Returns (Some errIPAddress))
  /\ (binaryMissing W = false -> requestIP req <> EmptyString ->
      forall e, (json_Unmarshal_pod L (OrchestratorContext req)).2 = Some e ->
      result (createOrUpdateWithOperation L W req op) = Returns (Some e)).
Proof.
  intros H.
  assert (Hthird : binaryMissing W = false -> requestIP req <> EmptyString ->
            forall e, (json_Unmarshal_pod L (OrchestratorContext req)).2 = Some e ->
            createOrUpdateWithOperation L W req op
            = (Returns (Some e),
               [EvLog "[Azure CNS] createOrUpdateWithOperation called with operation type %v"
                      [LString op];
                EvStat pluginPath;
                EvLog "[Azure CNS] Unmarshalling %s failed with error %v"
                      [LString (NetworkContainerType req); LError e]]))
    by (intros; apply update_bad_context; assumption).
  destruct (binaryMissing W) eqn:Hb.
  - rewrite (update_binary_missing L W req op Hb).
    repeat split; eauto; discriminate.
  - destruct (String.eqb_spec (requestIP req) EmptyString) as [Hip | Hip].
    + rewrite (update_empty_address L W req op Hb Hip).
      repeat split; eauto; try discriminate. intros; contradiction.
    + destruct H as [H | [H | H]]; [discriminate | contradiction |].
      destruct (json_Unmarshal_pod L (OrchestratorContext req)).2 as [e |] eqn:He;
        [| contradiction].
      rewrite (Hthird eq_refl Hip e eq_refl).
      repeat split; eauto; try discriminate; try (intros; contradiction).
      intros _ _ e' He'. simpl. congruence.
Qed.

(** No binary, no address and a context that is not JSON: the missing
    binary is what is reported. *)
Lemma update_preconditions_sample :
  let W := Sample.world Sample.bare in
  let req := Sample.request "Kubernetes" "" (Sample.text "x") in
  (exists e, result (createOrUpdateWithOperation (Ref.lib []) W req "UPDATE")
             = Returns (Some e))
  /\ spawns (trace (createOrUpdateWithOperation (Ref.lib []) W req "UPDATE")) = []
  /\ result (createOrUpdateWithOperation (Ref.lib []) W req "UPDATE")
     = Returns (Some errBinary).
Proof.
  intros W req.
  destruct (update_preconditions (Ref.lib []) W req "UPDATE") as (H1 & H2 & H3 & _).
  - left. reflexivity.
  - split; [exact H1 |]. split; [exact H2 |]. apply H3. reflexivity.
Defined.

(** C10: of the failures of the stat, only the one classified as
    not-exist aborts the update path; with any other failure the check is
    passed and the path behaves as if the stat had succeeded, going on to
    the next checks. *)
Theorem stat_failure_other_than_not_exist (L : GoLib) (W : World)
        (req : CreateNetworkContainerRequest) (op : string) (err : error) :
  os_Stat W pluginPath = Some err ->
  (os_IsNotExist err = true ->
   result (createOrUpdateWithOperation L W req op) = Returns (Some errBinary))
  /\ (os_IsNotExist err = false ->
      createOrUpdateWithOperation L W req op
      = createOrUpdateWithOperation L (statSucceeds W) req op).
Proof.
  intros Hstat. split; intros Hne.
  - rewrite update_binary_missing; [reflexivity |].
    unfold binaryMissing. rewrite Hstat. exact Hne.
  - unfold createOrUpdateWithOperation, updateNetwork, getNetworkConf.
    unfold pluginPath in Hstat. rewrite Hstat, Hne. reflexivity.
Qed.

(** The stat is refused with EACCES and the address is empty: the update
    path reaches the address check and fails there. *)
Lemma stat_failure_other_than_not_exist_sample :
  let req := Sample.request "Kubernetes" "" Sample.podContext in
  os_Stat Sample.statDenied pluginPath
  = Some (PathError "stat" pluginPath EACCES)
  /\ createOrUpdateWithOperation (Ref.lib []) Sample.statDenied req "UPDATE"
     = createOrUpdateWithOperation (Ref.lib [])
         (statSucceeds Sample.statDenied) req "UPDATE"
  /\ result (createOrUpdateWithOperation (Ref.lib []) Sample.statDenied req
               "UPDATE") = Returns (Some errIPAddress).
Proof.
  intros req. split; [reflexivity |]. split; [| reflexivity].
  apply (stat_failure_other_than_not_exist (Ref.lib []) Sample.statDenied req
           "UPDATE" (PathError "stat" pluginPath EACCES)); reflexivity.
Defined.

(* ================================================================== *)
(** ** Flattening the configuration list: [getNetworkConf] *)

(** Whatever the file holds, the only event of the flattener is the read
    of its file. *)
Lemma getNetworkConf_trace (L : GoLib) (W : World) (path : string) :
  trace (getNetworkConf L W path) = [EvReadFile path].
Proof.
  unfold getNetworkConf. rewrite bind_emit. simpl. f_equal.
  destruct (ioutil_ReadFile W path) as [content [e |]]; [reflexivity |].
  destruct (json_Unmarshal_map L content) as [m [e |]]; [reflexivity |].
  destruct (index m PluginsStr) as [| | | | [| [] l] |]; try reflexivity.
  simpl.
  destruct (index m VersionStr); try reflexivity.
  destruct (index m NameStr); try reflexivity.
  simpl. destruct (json_Marshal L _) as [b [e |]]; reflexivity.
Qed.

(** C2: for a file that is read and decoded without error, whose plugin
    list starts with an object and whose version and name are strings,
    [getNetworkConf] returns the encoding of that first object with the
    version and the name inserted under cniVersion and name. *)
Theorem getNetworkConf_flattens (L : GoLib) (W : World) (path : string)
        (content : bytes) (m entry : gmap string Value) (others : list Value)
        (version name : string) :
  ioutil_ReadFile W path = (content, None) ->
  json_Unmarshal_map L content = (m, None) ->
  index m PluginsStr = VSlice (VMap entry :: others) ->
  index m VersionStr = VString version ->
  index m NameStr = VString name ->
  getNetworkConf L W path
  = (Returns (marshalled L (<[NameStr := VString name]>
                              (<[VersionStr := VString version]> entry))),
     [EvReadFile path]).
Proof.
  intros Hread Hdec Hplugins Hversion Hname.
  unfold getNetworkConf, marshalled. rewrite bind_emit.
  rewrite Hread, Hdec, Hplugins, Hversion, Hname. simpl.
  destruct (json_Marshal L _) as [b [e |]]; reflexivity.
Qed.

(** The list with version 0.4.0, name azure and the one entry of type
    vnet: the flat document has exactly the three members type, cniVersion
    and name, and is written with its keys in increasing order. *)
Lemma getNetworkConf_flattens_sample :
  let W := Sample.world (Sample.host Sample.conflist Sample.pluginOk) in
  getNetworkConf (Ref.lib []) W confPath
  = (Returns (marshalled (Ref.lib []) Sample.flat), [EvReadFile confPath])
  /\ marshalled (Ref.lib []) Sample.flat = (Sample.flatText, None).
Proof.
  intros W. split; [| reflexivity].
  exact (getNetworkConf_flattens (Ref.lib []) W confPath Sample.conflist
           (json_Unmarshal_map (Ref.lib []) Sample.conflist).1
           {[ "type"%string := VString "vnet" ]} [] "0.4.0" "azure"
           eq_refl eq_refl eq_refl eq_refl eq_refl).
Defined.

(** C1, as the code has it: when the decoder reports an error for the
    content of the file, [getNetworkConf] returns that error and no
    document.  When the content decodes (an object, or whatever else the
    decoder accepts and leaves the map empty for) but the document is
    malformed (plugin list absent, not a list or empty; version or name
    absent or not a string), [getNetworkConf] panics and returns nothing:
    an index out of range for the empty list, and in every other case a
    failed type assertion, namely the first that fails of: the plugin list
    as a list, its first entry as an object, the version as a string, the
    name as a string.  An absent member fails its assertion as nil. *)
Theorem getNetworkConf_malformed (L : GoLib) (W : World) (path : string)
        (content : bytes) (m : gmap string Value) (derr : option error) :
  ioutil_ReadFile W path = (content, None) ->
  json_Unmarshal_map L content = (m, derr) ->
  (forall e, derr = Some e ->
     getNetworkConf L W path = (Returns ([], Some e), [EvReadFile path]))
  /\ (derr = None -> malformed m = true ->
      exists p,
        getNetworkConf L W path = (Panics p, [EvReadFile path])
        /\ (index m PluginsStr = VSlice [] -> p = IndexOutOfRangePanic 0 0)
        /\ (index m PluginsStr <> VSlice [] ->
            exists have want, p = TypeAssertionPanic have want)
        /\ ((forall l, index m PluginsStr <> VSlice l) ->
            p = TypeAssertionPanic (typeOf (index m PluginsStr)) TSlice)
        /\ (m !! PluginsStr = None -> p = TypeAssertionPanic TNil TSlice)
        /\ (forall v l, index m PluginsStr = VSlice (v :: l) ->
            ((forall entry, v <> VMap entry) ->
             p = TypeAssertionPanic (typeOf v) TMap)
            /\ (forall entry, v = VMap entry ->
                isString (index m VersionStr) = false ->
                p = TypeAssertionPanic (typeOf (index m VersionStr)) TString)
            /\ (forall entry, v = VMap entry ->
                isString (index m VersionStr) = true ->
                p = TypeAssertionPanic (typeOf (index m NameStr)) TString
                /\ isString (index m NameStr) = false)
            /\ (forall entry, v = VMap entry -> m !! VersionStr = None ->
                p = TypeAssertionPanic TNil TString)
            /\ (forall entry, v = VMap entry ->
                isString (index m VersionStr) = true ->
                m !! NameStr = None ->
                p = TypeAssertionPanic TNil TString))).
Proof.
  intros Hread Hdec. split.
  - intros e ->. unfold getNetworkConf. rewrite bind_emit, Hread, Hdec.
    reflexivity.
  - intros -> Hbad.
    unfold getNetworkConf. rewrite bind_emit. rewrite Hread, Hdec.
    unfold malformed in Hbad.
    assert (Hnil : m !! PluginsStr = None -> index m PluginsStr = VNil)
      by (intros H; unfold index; rewrite H; reflexivity).
    assert (Hvnil : m !! VersionStr = None -> index m VersionStr = VNil)
      by (intros H; unfold index; rewrite H; reflexivity).
    assert (Hnnil : m !! NameStr = None -> index m NameStr = VNil)
      by (intros H; unfold index; rewrite H; reflexivity).
    destruct (index m PluginsStr) as [| b | f | s | [| v l] | pm] eqn:Hp.
    (* the plugin list is not a list: five cases; or it is empty *)
    1-4, 7: (eexists; split; [reflexivity |];
             split; [discriminate |];
             split; [intros _; eexists _, _; reflexivity |];
             split; [intros _; reflexivity |];
             split; [intros H; specialize (Hnil H); try discriminate Hnil;
                     reflexivity |];
             intros v l; discriminate).
    { eexists. split; [reflexivity |].
      split; [reflexivity |].
      split; [intros H; contradiction |].
      split; [intros H; exfalso; eapply H; reflexivity |].
      split; [intros H; specialize (Hnil H); discriminate |].
      intros v l; discriminate. }
    (* a non-empty plugin list *)
    simpl in Hbad.
    assert (Hlist : forall p (Q : Prop),
              (exists have want : dyntype, p = TypeAssertionPanic have want) ->
              Q ->
              (VSlice (v :: l) = VSlice [] -> p = IndexOutOfRangePanic 0 0)
              /\ (VSlice (v :: l) <> VSlice [] ->
                  exists have want, p = TypeAssertionPanic have want)
              /\ ((forall l', VSlice (v :: l) <> VSlice l') ->
                  p = TypeAssertionPanic TSlice TSlice)
              /\ (m !! PluginsStr = None -> p = TypeAssertionPanic TNil TSlice)
              /\ Q).
    { intros p Q Hp' HQ. split; [discriminate |]. split; [intros _; exact Hp' |].
      split; [intros H; exfalso; eapply H; reflexivity |].
      split; [intros H; specialize (Hnil H); discriminate | exact HQ]. }
    destruct v as [| vb | vf | vs | vl | entry].
    1-5: (eexists; split; [reflexivity |];
          apply Hlist; [eexists _, _; reflexivity |];
          intros v' l' [= <- <-];
          split; [intros _; reflexivity |];
          split; [intros entry' Hm; discriminate Hm |];
          split; [intros entry' Hm; discriminate Hm |];
          split; intros entry' Hm; discriminate Hm).
    cbn [assertSlice first assertMap bind ret].
    destruct (index m VersionStr) as [| vb | vf | version | vl | vm] eqn:Hv.
    1-3, 5-6: (eexists; split; [reflexivity |];
               apply Hlist; [eexists _, _; reflexivity |];
               intros v' l' [= <- <-];
               split; [intros H; exfalso; eapply H; reflexivity |];
               split; [intros entry' _ _; reflexivity |];
               split; [intros entry' _ H; discriminate H |];
               split; [intros entry' _ Hmiss; specialize (Hvnil Hmiss);
                       try discriminate Hvnil; reflexivity |];
               intros entry' _ H; discriminate H).
    cbn [assertString bind ret throw].
    destruct (index m NameStr) as [| nb | nf | name | nl | nm] eqn:Hn;
      [| | | discriminate Hbad | |].
    all: (eexists; split; [reflexivity |];
          apply Hlist; [eexists _, _; reflexivity |];
          intros v' l' [= <- <-];
          split; [intros H; exfalso; eapply H; reflexivity |];
          split; [intros entry' _ H; discriminate H |];
          split; [intros entry' _ _; split; reflexivity |];
          split; [intros entry' _ H; specialize (Hvnil H); discriminate |];
          intros entry' _ _ H; specialize (Hnnil H);
          try discriminate Hnnil; reflexivity).
Qed.

(** The list with an empty plugin list panics with index 0 out of range. *)
Lemma getNetworkConf_malformed_sample :
  let W := Sample.world (Sample.host Sample.conflistNoPlugins Sample.pluginOk) in
  exists p,
    getNetworkConf (Ref.lib []) W confPath = (Panics p, [EvReadFile confPath])
    /\ p = IndexOutOfRangePanic 0 0.
Proof.
  intros W.
  destruct (getNetworkConf_malformed (Ref.lib []) W confPath
              Sample.conflistNoPlugins
              (json_Unmarshal_map (Ref.lib []) Sample.conflistNoPlugins).1
              None eq_refl eq_refl) as [_ Hpanic].
  destruct (Hpanic eq_refl eq_refl) as (p & Hrun & Hempty & _).
  exists p. split; [exact Hrun |]. apply Hempty. reflexivity.
Defined.

(** The literal null decodes without error and leaves the map nil: the
    assertion on the plugin list fails on nil.  An array does not decode:
    the decoder's error comes back.  A list without name fails the last
    assertion on nil. *)
Example getNetworkConf_null_array_noname :
  result (getNetworkConf (Ref.lib [])
            (Sample.world (Sample.host More.confNull Sample.pluginOk)) confPath)
  = Panics (TypeAssertionPanic TNil TSlice)
  /\ result (getNetworkConf (Ref.lib [])
               (Sample.world (Sample.host More.confArray Sample.pluginOk))
               confPath)
     = Returns ([], Some (UnmarshalTypeError "array" ""
                            "map[string]interface {}"))
  /\ result (getNetworkConf (Ref.lib [])
               (Sample.world (Sample.host More.conflistNoName Sample.pluginOk))
               confPath)
     = Panics (TypeAssertionPanic TNil TString).
Proof. repeat split; vm_compute; reflexivity. Qed.

(** C1, as stated, fails: for the list with an empty plugin list no error
    is returned to the caller; the call panics. *)
Lemma getNetworkConf_returns_no_error :
  let W := Sample.world (Sample.host Sample.conflistNoPlugins Sample.pluginOk) in
  malformed (json_Unmarshal_map (Ref.lib []) Sample.conflistNoPlugins).1 = true
  /\ result (getNetworkConf (Ref.lib []) W confPath)
     = Panics (IndexOutOfRangePanic 0 0)
  /\ ~ (exists b e, result (getNetworkConf (Ref.lib []) W confPath)
                    = Returns (b, Some e)).
Proof.
  intros W. split; [reflexivity |]. split; [reflexivity |].
  intros (b & e & H). discriminate H.
Qed.

(* ================================================================== *)
(** ** The environment handed to the plugin *)

(** [updateNetwork] logs the environment, starts one subprocess and
    interprets its exit. *)
Lemma updateNetwork_run (L : GoLib) (W : World) (rt : RuntimeConf)
      (netconf : bytes) :
  let c := {| cmd_Path := pluginPath;
              cmd_Env := AsEnv L (args "UPDATE" rt);
              cmd_Stdin := netconf |} in
  updateNetwork L W rt netconf
  = (Returns (pluginErr L (Cmd_Run W c).2 (Cmd_Run W c).1),
     [EvLog "[Azure CNS] CNI called with environ variables %v"
            [LEnviron (AsEnv L (args "UPDATE" rt))];
      EvRun c]).
Proof.
  intros c. unfold updateNetwork, log_Printf. rewrite !bind_emit.
  fold pluginPath. fold c. destruct (Cmd_Run W c). reflexivity.
Qed.

(** The update path after its first log line, which is the only place
    where the operation is used. *)
Lemma update_operation_only_logged (L : GoLib) (W : World)
      (req : CreateNetworkContainerRequest) (op : string) :
  exists k : M (option error),
    forall op',
      createOrUpdateWithOperation L W req op'
      = (result k,
         EvLog "[Azure CNS] createOrUpdateWithOperation called with operation type %v"
               [LString op'] :: trace k).
Proof.
  eexists. intros op'. unfold createOrUpdateWithOperation at 1, log_Printf at 1.
  rewrite bind_emit. reflexivity.
Qed.

(** Rules for [spawnsAll], one per way of building a computation. *)
Lemma spawnsAll_ret (P : Cmd -> Prop) {A} (a : A) : spawnsAll P (ret a).
Proof. constructor. Qed.

Lemma spawnsAll_log (P : Cmd -> Prop) (format : string) (l : list logarg) :
  spawnsAll P (emit (EvLog format l)).
Proof. constructor. Qed.

Lemma spawnsAll_stat (P : Cmd -> Prop) (path : string) :
  spawnsAll P (emit (EvStat path)).
Proof. constructor. Qed.

Lemma spawnsAll_bind (P : Cmd -> Prop) {A B} (m : M A) (f : A -> M B) :
  spawnsAll P m -> (forall a, spawnsAll P (f a)) -> spawnsAll P (bind m f).
Proof.
  unfold spawnsAll. intros Hm Hf. rewrite trace_bind, spawns_app.
  apply Forall_app. split; [exact Hm |].
  destruct (result m); [apply Hf | constructor].
Qed.

Lemma spawnsAll_getNetworkConf (P : Cmd -> Prop) (L : GoLib) (W : World)
      (path : string) :
  spawnsAll P (getNetworkConf L W path).
Proof. unfold spawnsAll. rewrite getNetworkConf_trace. constructor. Qed.

Lemma spawnsAll_updateNetwork (L : GoLib) (W : World) (rt : RuntimeConf)
      (netconf : bytes) :
  spawnsAll (fun c => exists rt, cmd_Env c = AsEnv L (args "UPDATE" rt))
            (updateNetwork L W rt netconf).
Proof.
  unfold spawnsAll. rewrite updateNetwork_run. simpl.
  constructor; [| constructor]. exists rt. reflexivity.
Qed.

Create HintDb spawns.
#[local] Hint Resolve spawnsAll_ret spawnsAll_log spawnsAll_stat
  spawnsAll_getNetworkConf spawnsAll_updateNetwork : spawns.

Ltac spawns_step :=
  match goal with
  | |- spawnsAll _ (bind _ _) => apply spawnsAll_bind; [| intros ?]
  | |- spawnsAll _ (match ?x with _ => _ end) => destruct x
  | |- spawnsAll _ _ => solve [auto with spawns]
  end.

(** Every subprocess of the update path gets the environment built by
    [args] for the command UPDATE. *)
Lemma update_spawns (L : GoLib) (W : World)
      (req : CreateNetworkContainerRequest) (op : string) :
  spawnsAll (fun c => exists rt, cmd_Env c = AsEnv L (args "UPDATE" rt))
            (createOrUpdateWithOperation L W req op).
Proof.
  unfold createOrUpdateWithOperation, buildCNIRuntimeConf, log_Printf.
  repeat spawns_step.
Qed.

(** C9: the operation passed to [createOrUpdateWithOperation] reaches the
    first log line and nothing else.  Two calls that differ in the
    operation only return the same result, start the same subprocesses and
    perform the same events after that line, and the environment of every
    subprocess is the one built for the command UPDATE. *)
Theorem operation_never_reaches_plugin (L : GoLib) (W : World)
        (req : CreateNetworkContainerRequest) (op1 op2 : string) :
  result (createOrUpdateWithOperation L W req op1)
  = result (createOrUpdateWithOperation L W req op2)
  /\ spawns (trace (createOrUpdateWithOperation L W req op1))
     = spawns (trace (createOrUpdateWithOperation L W req op2))
  /\ tail (trace (createOrUpdateWithOperation L W req op1))
     = tail (trace (createOrUpdateWithOperation L W req op2))
  /\ (forall c, In c (spawns (trace (createOrUpdateWithOperation L W req op1))) ->
      exists rt, cmd_Env c = AsEnv L (args "UPDATE" rt)
                 /\ Command (args "UPDATE" rt) = "UPDATE"%string).
Proof.
  destruct (update_operation_only_logged L W req op1) as [k Hk].
  rewrite (Hk op1), (Hk op2).
  split; [reflexivity |]. split; [reflexivity |]. split; [reflexivity |].
  rewrite <- (Hk op1). intros c Hc.
  pose proof (update_spawns L W req op1) as Hall.
  unfold spawnsAll in Hall. rewrite Forall_forall in Hall.
  destruct (Hall c) as [rt Hrt]; [apply list_elem_of_In; exact Hc |].
  exists rt. split; [exact Hrt | reflexivity].
Qed.

(** On a host with the binary, the configuration list and the interface,
    the operations CREATE and UPDATE start the same subprocess, whose
    environment names the command UPDATE. *)
Lemma operation_never_reaches_plugin_sample :
  let W := Sample.world (Sample.host Sample.conflist Sample.pluginOk) in
  let req := Sample.request "Kubernetes" "10.0.0.4" Sample.podContext in
  spawns (trace (createOrUpdateWithOperation (Ref.lib []) W req "CREATE"))
  = spawns (trace (createOrUpdateWithOperation (Ref.lib []) W req "UPDATE"))
  /\ cmd_Env <$> spawns (trace (createOrUpdateWithOperation (Ref.lib []) W req
                                  "CREATE"))
     = [[ "CNI_COMMAND=UPDATE"; "CNI_CONTAINERID="; "CNI_NETNS=";
          "CNI_ARGS=K8S_POD_NAMESPACE=default;K8S_POD_NAME=web-0";
          "CNI_IFNAME=eth1"; "CNI_PATH=/opt/cni/bin" ]]%string.
Proof. intros W req. split; vm_compute; reflexivity. Qed.

(* ================================================================== *)
(** ** The whole path on the sample host *)

(** With everything in place the update path reads the list, starts the
    plugin once with the flat document on its standard input, and returns
    nil. *)
Lemma update_path_sample :
  let W := Sample.world (Sample.host Sample.conflist Sample.pluginOk) in
  let req := Sample.request "Kubernetes" "10.0.0.4" Sample.podContext in
  result (createOrUpdateInterface "WebApps" (Ref.lib []) W req) = Returns None
  /\ reads (trace (createOrUpdateInterface "WebApps" (Ref.lib []) W req))
     = [confPath]
  /\ cmd_Stdin <$> spawns (trace (createOrUpdateInterface "WebApps" (Ref.lib [])
                                    W req))
     = [Sample.flatText].
Proof. intros W req. repeat split; vm_compute; reflexivity. Qed.

(** A plugin that exits with status 1 and prints a payload: the update
    path returns the plugin's error. *)
Lemma update_path_plugin_error_sample :
  let W := Sample.world (Sample.host Sample.conflist
                           (Sample.pluginFails Sample.boom)) in
  let req := Sample.request "Kubernetes" "10.0.0.4" Sample.podContext in
  result (createOrUpdateInterface "WebApps" (Ref.lib []) W req)
  = Returns (Some (TypesError {| Fset := false; Pos := 0; Msg := "boom";
                                 Soft := false |})).
Proof. intros W req. vm_compute. reflexivity. Qed.

(** A malformed list makes the whole update path panic, before any
    subprocess is started. *)
Lemma update_path_malformed_sample :
  let W := Sample.world (Sample.host Sample.conflistNoPlugins Sample.pluginOk) in
  let req := Sample.request "Kubernetes" "10.0.0.4" Sample.podContext in
  result (createOrUpdateInterface "WebApps" (Ref.lib []) W req)
  = Panics (IndexOutOfRangePanic 0 0)
  /\ spawns (trace (createOrUpdateInterface "WebApps" (Ref.lib []) W req)) = [].
Proof. intros W req. split; vm_compute; reflexivity. Qed.

(* ================================================================== *)
(** ** More on [getNetworkConf] *)

(** X1: for a file that is read and decoded without error,
    [getNetworkConf] panics exactly when the document is not well shaped:
    the plugin list is not a list that starts with an object, or version or
    name is not a string.  Otherwise it returns. *)
Theorem getNetworkConf_panics_iff (L : GoLib) (W : World) (path : string)
        (content : bytes) (m : gmap string Value) :
  ioutil_ReadFile W path = (content, None) ->
  json_Unmarshal_map L content = (m, None) ->
  ((exists p, result (getNetworkConf L W path) = Panics p)
   <-> wellShaped m = false)
  /\ ((exists r, result (getNetworkConf L W path) = Returns r)
      <-> wellShaped m = true).
Proof.
  intros Hread Hdec.
  unfold getNetworkConf, wellShaped. rewrite bind_emit, Hread, Hdec.
  destruct (index m PluginsStr) as [| b | f | s | [| [] l] |]; simpl;
    try (split; split; [reflexivity | eauto | intros [r Hr]; discriminate
                        | discriminate]).
  destruct (index m VersionStr); simpl;
    try (split; split; [reflexivity | eauto | intros [r Hr]; discriminate
                        | discriminate]).
  destruct (index m NameStr); simpl;
    try (split; split; [reflexivity | eauto | intros [r Hr]; discriminate
                        | discriminate]).
  destruct (json_Marshal L _) as [netConfig [e |]]; simpl;
    (split; split; [intros [p Hp]; discriminate | discriminate
                    | reflexivity | eauto]).
Qed.

(** A list whose first plugin entry is a string panics; the list with one
    object entry returns. *)
Lemma getNetworkConf_panics_iff_sample :
  let W := Sample.world (Sample.host More.conflistStringEntry Sample.pluginOk) in
  exists p, result (getNetworkConf (Ref.lib []) W confPath) = Panics p.
Proof.
  intros W.
  apply (getNetworkConf_panics_iff (Ref.lib []) W confPath
           More.conflistStringEntry
           (json_Unmarshal_map (Ref.lib []) More.conflistStringEntry).1
           eq_refl eq_refl).
  reflexivity.
Defined.

(** X2: the assertions come in a fixed order after the plugin list has
    been found non-empty: a first entry that is not an object is reported
    first, then a version that is not a string, then a name that is not a
    string; a missing member is reported as the nil type. *)
Theorem getNetworkConf_assertion_order (L : GoLib) (W : World) (path : string)
        (content : bytes) (m : gmap string Value) (v : Value)
        (others : list Value) :
  ioutil_ReadFile W path = (content, None) ->
  json_Unmarshal_map L content = (m, None) ->
  index m PluginsStr = VSlice (v :: others) ->
  ((forall entry, v <> VMap entry) ->
   result (getNetworkConf L W path) = Panics (TypeAssertionPanic (typeOf v) TMap))
  /\ (forall entry, v = VMap entry ->
      isString (index m VersionStr) = false ->
      result (getNetworkConf L W path)
      = Panics (TypeAssertionPanic (typeOf (index m VersionStr)) TString))
  /\ (forall entry, v = VMap entry ->
      isString (index m VersionStr) = true ->
      isString (index m NameStr) = false ->
      result (getNetworkConf L W path)
      = Panics (TypeAssertionPanic (typeOf (index m NameStr)) TString))
  /\ (m !! NameStr = None -> typeOf (index m NameStr) = TNil).
Proof.
  intros Hread Hdec Hplugins.
  unfold getNetworkConf. rewrite bind_emit, Hread, Hdec, Hplugins.
  repeat split.
  - intros Hv. destruct v; try reflexivity. exfalso. eapply Hv. reflexivity.
  - intros entry -> Hversion. simpl.
    destruct (index m VersionStr); try reflexivity. discriminate.
  - intros entry -> Hversion Hname. simpl.
    destruct (index m VersionStr); try discriminate. simpl.
    destruct (index m NameStr); try reflexivity. discriminate.
  - intros Hnone. unfold index. rewrite Hnone. reflexivity.
Qed.

(** The list without a name: the assertion on the name fails on nil. *)
Lemma getNetworkConf_assertion_order_sample :
  let W := Sample.world (Sample.host More.conflistNoName Sample.pluginOk) in
  result (getNetworkConf (Ref.lib []) W confPath)
  = Panics (TypeAssertionPanic TNil TString).
Proof.
  intros W.
  destruct (getNetworkConf_assertion_order (Ref.lib []) W confPath
              More.conflistNoName
              (json_Unmarshal_map (Ref.lib []) More.conflistNoName).1
              (VMap {[ "type"%string := VString "vnet" ]}) []
              eq_refl eq_refl eq_refl) as (_ & _ & Hname & _).
  exact (Hname _ eq_refl eq_refl eq_refl).
Defined.

(** X3: [getNetworkConf] never returns a document together with an error:
    whenever the error it returns is not nil, the bytes are nil. *)
Theorem getNetworkConf_error_without_document (L : GoLib) (W : World)
        (path : string) (r : bytes * option error) :
  result (getNetworkConf L W path) = Returns r -> r.2 <> None -> r.1 = [].
Proof.
  unfold getNetworkConf. rewrite bind_emit. unfold result at 1. simpl.
  destruct (ioutil_ReadFile W path) as [content [re |]];
    [simpl; intros [= <-]; reflexivity |].
  destruct (json_Unmarshal_map L content) as [m [de |]];
    [simpl; intros [= <-]; reflexivity |].
  destruct (index m PluginsStr) as [| | | | [| [] l] |]; simpl;
    try discriminate.
  destruct (index m VersionStr); simpl; try discriminate.
  destruct (index m NameStr); simpl; try discriminate.
  destruct (json_Marshal L _) as [netConfig [me |]]; simpl;
    intros Hr; injection Hr as <-; [reflexivity | intros H; contradiction].
Qed.

(** On a host without the configuration list the error of the read comes
    back, with no bytes. *)
Lemma getNetworkConf_error_without_document_sample :
  exists r,
    result (getNetworkConf (Ref.lib []) (Sample.world More.noConf) confPath)
    = Returns r
    /\ r.2 = Some (PathError "open" confPath ENOENT)
    /\ r.1 = [].
Proof.
  exists ([], Some (PathError "open" confPath ENOENT)).
  split; [reflexivity |]. split; [reflexivity |].
  apply (getNetworkConf_error_without_document (Ref.lib [])
           (Sample.world More.noConf) confPath); [reflexivity | discriminate].
Defined.

(** X4: what the flat document holds.  For a well-shaped document the map
    handed to the encoder has the top-level version under cniVersion and
    the top-level name under name, also when the plugin entry had members
    of those names; every other member is that of the plugin entry, and no
    other top-level member gets in. *)
Theorem getNetworkConf_flat_members (L : GoLib) (W : World) (path : string)
        (content : bytes) (m entry : gmap string Value) (others : list Value)
        (version name : string) :
  ioutil_ReadFile W path = (content, None) ->
  json_Unmarshal_map L content = (m, None) ->
  index m PluginsStr = VSlice (VMap entry :: others) ->
  index m VersionStr = VString version ->
  index m NameStr = VString name ->
  exists flat : gmap string Value,
    result (getNetworkConf L W path) = Returns (marshalled L flat)
    /\ flat !! VersionStr = Some (VString version)
    /\ flat !! NameStr = Some (VString name)
    /\ (forall k, k <> VersionStr -> k <> NameStr -> flat !! k = entry !! k)
    /\ dom flat = dom entry ∪ {[ VersionStr; NameStr ]}.
Proof.
  intros Hread Hdec Hplugins Hversion Hname.
  exists (<[NameStr := VString name]> (<[VersionStr := VString version]> entry)).
  split.
  - unfold getNetworkConf, marshalled. rewrite bind_emit.
    rewrite Hread, Hdec, Hplugins, Hversion, Hname. simpl.
    destruct (json_Marshal L _) as [netConfig [me |]]; reflexivity.
  - split; [| split; [| split]].
    + rewrite lookup_insert_ne by discriminate. apply lookup_insert_eq.
    + apply lookup_insert_eq.
    + intros k Hv Hn. rewrite !lookup_insert_ne by congruence. reflexivity.
    + rewrite !dom_insert_L. set_solver.
Qed.

(** The plugin entry that brings its own name and version loses them to
    the top-level ones and keeps its type. *)
Lemma getNetworkConf_flat_members_sample :
  let W := Sample.world (Sample.host More.conflistOwnName Sample.pluginOk) in
  exists flat : gmap string Value,
    result (getNetworkConf (Ref.lib []) W confPath)
    = Returns (marshalled (Ref.lib []) flat)
    /\ flat !! VersionStr = Some (VString "0.4.0")
    /\ flat !! NameStr = Some (VString "azure")
    /\ flat !! "type"%string = Some (VString "vnet").
Proof.
  intros W.
  destruct (getNetworkConf_flat_members (Ref.lib []) W confPath
              More.conflistOwnName
              (json_Unmarshal_map (Ref.lib []) More.conflistOwnName).1
              More.ownEntry [] "0.4.0" "azure"
              eq_refl eq_refl eq_refl eq_refl eq_refl)
    as (flat & Hrun & Hv & Hn & Hrest & _).
  exists flat. split; [exact Hrun |]. split; [exact Hv |]. split; [exact Hn |].
  rewrite Hrest by discriminate. reflexivity.
Defined.

(** X5: only the first plugin entry and the top-level version and name
    count.  Two files whose documents agree on these three give the same
    outcome, whatever else their plugin lists and top levels hold. *)
Theorem getNetworkConf_ignores_the_rest (L : GoLib) (W1 W2 : World)
        (path1 path2 : string) (content1 content2 : bytes)
        (m1 m2 : gmap string Value) (v : Value) (others1 others2 : list Value) :
  ioutil_ReadFile W1 path1 = (content1, None) ->
  ioutil_ReadFile W2 path2 = (content2, None) ->
  json_Unmarshal_map L content1 = (m1, None) ->
  json_Unmarshal_map L content2 = (m2, None) ->
  index m1 PluginsStr = VSlice (v :: others1) ->
  index m2 PluginsStr = VSlice (v :: others2) ->
  index m1 VersionStr = index m2 VersionStr ->
  index m1 NameStr = index m2 NameStr ->
  result (getNetworkConf L W1 path1) = result (getNetworkConf L W2 path2).
Proof.
  intros Hr1 Hr2 Hd1 Hd2 Hp1 Hp2 Hv Hn.
  unfold getNetworkConf. rewrite !bind_emit.
  rewrite Hr1, Hr2, Hd1, Hd2, Hp1, Hp2, Hv, Hn. reflexivity.
Qed.

(** The list with a second plugin entry and a further top-level member
    flattens to the same bytes as the list with the first entry alone. *)
Lemma getNetworkConf_ignores_the_rest_sample :
  result (getNetworkConf (Ref.lib [])
            (Sample.world (Sample.host More.conflistTwo Sample.pluginOk))
            confPath)
  = result (getNetworkConf (Ref.lib [])
              (Sample.world (Sample.host Sample.conflist Sample.pluginOk))
              confPath).
Proof.
  exact (getNetworkConf_ignores_the_rest (Ref.lib [])
           (Sample.world (Sample.host More.conflistTwo Sample.pluginOk))
           (Sample.world (Sample.host Sample.conflist Sample.pluginOk))
           confPath confPath More.conflistTwo Sample.conflist
           (json_Unmarshal_map (Ref.lib []) More.conflistTwo).1
           (json_Unmarshal_map (Ref.lib []) Sample.conflist).1
           (VMap {[ "type"%string := VString "vnet" ]})
           [VMap {[ "type"%string := VString "portmap" ]}] []
           eq_refl eq_refl eq_refl eq_refl eq_refl eq_refl eq_refl eq_refl).
Defined.

(** X6: whatever the file holds, and also when it panics,
    [getNetworkConf] has one effect only: it reads the file at the path it
    was given.  It never logs, examines another file or starts a
    process. *)
Theorem getNetworkConf_only_reads (L : GoLib) (W : World) (path : string) :
  reads (trace (getNetworkConf L W path)) = [path]
  /\ spawns (trace (getNetworkConf L W path)) = []
  /\ stats (trace (getNetworkConf L W path)) = []
  /\ length (trace (getNetworkConf L W path)) = 1%nat.
Proof. rewrite getNetworkConf_trace. repeat split. Qed.

(* ================================================================== *)
(** ** More on [pluginErr] and [updateNetwork] *)

(** A nil result needs a nil error. *)
Lemma pluginErr_none (L : GoLib) (err : option error) (output : bytes) :
  pluginErr L err output = None -> err = None.
Proof.
  unfold pluginErr. destruct err as [[] |]; simpl; try discriminate;
    [| reflexivity].
  destruct (json_Unmarshal_Error L output types_Error_zero) as [emsg [pe |]];
    discriminate.
Qed.

(** X7: [pluginErr] reports success exactly when the run did: its result is
    nil if and only if the error of the run is nil, whatever the output
    holds and however the decoder treats it. *)
Theorem pluginErr_nil_iff (L : GoLib) (err : option error) (output : bytes) :
  pluginErr L err output = None <-> err = None.
Proof.
  split; [apply pluginErr_none |]. intros ->. reflexivity.
Qed.

(** X8: on an exit error the result is always a [types.Error], and the
    exit status has no part in it: two runs that end with different
    statuses and the same output give the same error. *)
Theorem pluginErr_exit_status_dropped (L : GoLib) (status1 status2 : Z)
        (output : bytes) :
  pluginErr L (Some (ExitError status1)) output
  = pluginErr L (Some (ExitError status2)) output
  /\ exists e, pluginErr L (Some (ExitError status1)) output
               = Some (TypesError e).
Proof.
  split; [reflexivity |].
  unfold pluginErr. simpl.
  destruct (json_Unmarshal_Error L output types_Error_zero) as [emsg [pe |]];
    eexists; reflexivity.
Qed.

(** X9: interpreting twice changes nothing: what [pluginErr] returns is
    never an exit error, so a second pass hands it back as it is. *)
Theorem pluginErr_idempotent (L : GoLib) (err : option error)
        (output output' : bytes) :
  isExitError (pluginErr L err output) = false
  /\ pluginErr L (pluginErr L err output) output' = pluginErr L err output.
Proof.
  assert (H : isExitError (pluginErr L err output) = false).
  { destruct (isExitError err) eqn:Hexit.
    - destruct err as [[] |]; try discriminate.
      pose proof (pluginErr_exit_types L status output) as Ht.
      destruct (pluginErr L (Some (ExitError status)) output) as [[] |];
        try discriminate; reflexivity.
    - rewrite pluginErr_passthrough by assumption. assumption. }
  split; [exact H |]. apply pluginErr_passthrough, H.
Qed.

(** X10: [updateNetwork], given a runtime configuration (a pointer that is
    not nil, as the update path always passes), logs the environment and
    calls [Run] exactly once, on the command of the plugin binary with the
    environment built for UPDATE and the configuration on its standard
    input; whether a process comes of that call is up to [Run].  It returns
    what [pluginErr] makes of the call, which is nil exactly when [Run]
    reported no error. *)
Theorem updateNetwork_one_run (L : GoLib) (W : World) (rt : RuntimeConf)
        (netconf : bytes) :
  trace (updateNetwork L W rt netconf)
  = [EvLog "[Azure CNS] CNI called with environ variables %v"
           [LEnviron (AsEnv L (args "UPDATE" rt))];
     EvRun (pluginCmd L rt netconf)]
  /\ result (updateNetwork L W rt netconf)
     = Returns (pluginErr L (Cmd_Run W (pluginCmd L rt netconf)).2
                            (Cmd_Run W (pluginCmd L rt netconf)).1)
  /\ (result (updateNetwork L W rt netconf) = Returns None
      <-> (Cmd_Run W (pluginCmd L rt netconf)).2 = None).
Proof.
  rewrite updateNetwork_run. fold (pluginCmd L rt netconf).
  split; [reflexivity |]. split; [reflexivity |].
  simpl. split.
  - intros [= H]. apply pluginErr_none in H. exact H.
  - intros H. rewrite H. reflexivity.
Qed.

(** A binary that cannot be started: [Run] is called once all the same,
    and its error comes back as it is. *)
Example updateNetwork_failed_start :
  let W := Sample.world (Sample.host Sample.conflist More.pluginNotStarted) in
  let rt := updateRuntime More.kubeRequest More.pod in
  spawns (trace (updateNetwork (Ref.lib []) W rt Sample.flatText))
  = [pluginCmd (Ref.lib []) rt Sample.flatText]
  /\ result (updateNetwork (Ref.lib []) W rt Sample.flatText)
     = Returns (Some (PathError "fork/exec" pluginPath ENOEXEC)).
Proof. intros W rt. split; vm_compute; reflexivity. Qed.

(* ================================================================== *)
(** ** More on the update path *)

Lemma bind_ret {A B} (a : A) (f : A -> M B) : bind (ret a) f = f a.
Proof. unfold bind, ret. destruct (f a). reflexivity. Qed.

Lemma bind_ext {A B} (m : M A) (f g : A -> M B) :
  (forall a, f a = g a) -> bind m f = bind m g.
Proof. intros H. destruct m as [[a | p] t]; simpl; [rewrite H |]; reflexivity. Qed.

(** The update path once its three checks have passed: it logs the pod and
    the runtime configuration, flattens the configuration list and, if that
    gives a document, logs it and hands it to [updateNetwork]. *)
Lemma update_after_checks (L : GoLib) (W : World)
      (req : CreateNetworkContainerRequest) (op : string)
      (pod : KubernetesPodInfo) :
  binaryMissing W = false ->
  requestIP req <> EmptyString ->
  json_Unmarshal_pod L (OrchestratorContext req) = (pod, None) ->
  createOrUpdateWithOperation L W req op
  = bind (emit (EvLog "[Azure CNS] createOrUpdateWithOperation called with operation type %v"
                      [LString op]))
      (fun _ => bind (emit (EvStat pluginPath))
      (fun _ => bind (emit (EvLog "[Azure CNS] Pod info %v" [LPodInfo pod]))
      (fun _ => bind (emit (EvLog "[Azure CNS] run time conf info %v"
                                  [LRuntimeConf (updateRuntime req pod)]))
      (fun _ => bind (getNetworkConf L W confPath)
      (fun r =>
         match r.2 with
         | Some e =>
             bind (emit (EvLog "[Azure CNS] Failed to build network configuration with error %v"
                               [LError e]))
                  (fun _ => ret (Some e))
         | None =>
             bind (emit (EvLog "[Azure CNS] network configuration info %v"
                               [LString (string_of_list_byte r.1)]))
             (fun _ => bind (updateNetwork L W (updateRuntime req pod) r.1)
             (fun err =>
                match err with
                | Some e =>
                    bind (emit (EvLog "[Azure CNS] Failed to update network with error %v"
                                      [LError e]))
                         (fun _ => ret (Some e))
                | None => ret None
                end))
         end))))).
Proof.
  intros Hb Hip Hdec.
  unfold createOrUpdateWithOperation, log_Printf, buildCNIRuntimeConf.
  unfold binaryMissing, pluginPath in Hb. rewrite Hb.
  apply String.eqb_neq in Hip. unfold requestIP in Hip. rewrite Hip.
  rewrite Hdec.
  apply bind_ext; intros _. apply bind_ext; intros _.
  apply bind_ext; intros _. rewrite bind_ret.
  apply bind_ext; intros _. apply bind_ext; intros [netConf [e |]];
    reflexivity.
Qed.

(** [getNetworkConf] as the pair of its result and its one event. *)
Lemma getNetworkConf_pair (L : GoLib) (W : World) (path : string) :
  getNetworkConf L W path
  = (result (getNetworkConf L W path), [EvReadFile path]).
Proof.
  rewrite <- (getNetworkConf_trace L W path).
  destruct (getNetworkConf L W path). reflexivity.
Qed.

(** The checks have passed and the flattener panics. *)
Lemma update_passed_panic (L : GoLib) (W : World)
      (req : CreateNetworkContainerRequest) (op : string)
      (pod : KubernetesPodInfo) (p : panic) :
  binaryMissing W = false ->
  requestIP req <> EmptyString ->
  json_Unmarshal_pod L (OrchestratorContext req) = (pod, None) ->
  result (getNetworkConf L W confPath) = Panics p ->
  result (createOrUpdateWithOperation L W req op) = Panics p
  /\ spawns (trace (createOrUpdateWithOperation L W req op)) = []
  /\ reads (trace (createOrUpdateWithOperation L W req op)) = [confPath]
  /\ stats (trace (createOrUpdateWithOperation L W req op)) = [pluginPath].
Proof.
  intros Hb Hip Hdec Hg.
  rewrite (update_after_checks L W req op pod Hb Hip Hdec).
  rewrite !bind_emit, getNetworkConf_pair, Hg. repeat split.
Qed.

(** The checks have passed and the flattener returns an error. *)
Lemma update_passed_error (L : GoLib) (W : World)
      (req : CreateNetworkContainerRequest) (op : string)
      (pod : KubernetesPodInfo) (b : bytes) (e : error) :
  binaryMissing W = false ->
  requestIP req <> EmptyString ->
  json_Unmarshal_pod L (OrchestratorContext req) = (pod, None) ->
  result (getNetworkConf L W confPath) = Returns (b, Some e) ->
  result (createOrUpdateWithOperation L W req op) = Returns (Some e)
  /\ spawns (trace (createOrUpdateWithOperation L W req op)) = []
  /\ reads (trace (createOrUpdateWithOperation L W req op)) = [confPath]
  /\ stats (trace (createOrUpdateWithOperation L W req op)) = [pluginPath].
Proof.
  intros Hb Hip Hdec Hg.
  rewrite (update_after_checks L W req op pod Hb Hip Hdec).
  rewrite !bind_emit, getNetworkConf_pair, Hg. repeat split.
Qed.

(** The checks have passed and the flattener returns a document. *)
Lemma update_passed_document (L : GoLib) (W : World)
      (req : CreateNetworkContainerRequest) (op : string)
      (pod : KubernetesPodInfo) (netConf : bytes) :
  binaryMissing W = false ->
  requestIP req <> EmptyString ->
  json_Unmarshal_pod L (OrchestratorContext req) = (pod, None) ->
  result (getNetworkConf L W confPath) = Returns (netConf, None) ->
  let c := pluginCmd L (updateRuntime req pod) netConf in
  result (createOrUpdateWithOperation L W req op)
  = Returns (pluginErr L (Cmd_Run W c).2 (Cmd_Run W c).1)
  /\ spawns (trace (createOrUpdateWithOperation L W req op)) = [c]
  /\ reads (trace (createOrUpdateWithOperation L W req op)) = [confPath]
  /\ stats (trace (createOrUpdateWithOperation L W req op)) = [pluginPath].
Proof.
  intros Hb Hip Hdec Hg c.
  rewrite (update_after_checks L W req op pod Hb Hip Hdec).
  rewrite !bind_emit, getNetworkConf_pair, Hg.
  cbn [bind snd fst]. rewrite bind_emit, updateNetwork_run.
  fold (pluginCmd L (updateRuntime req pod) netConf). fold c.
  cbn [bind]. destruct (pluginErr L (Cmd_Run W c).2 (Cmd_Run W c).1);
    repeat split.
Qed.

(** The observations of the update path, case by case: which check fails,
    or what the flattener gives once all have passed. *)
Lemma update_observed (L : GoLib) (W : World)
      (req : CreateNetworkContainerRequest) (op : string) :
  let call := createOrUpdateWithOperation L W req op in
  (~ checksPass L W req
   /\ (exists e, result call = Returns (Some e))
   /\ spawns (trace call) = [] /\ reads (trace call) = []
   /\ stats (trace call) = [pluginPath])
  \/ (checksPass L W req
      /\ ((exists p, result (getNetworkConf L W confPath) = Panics p
                     /\ result call = Panics p)
          \/ (exists b e, result (getNetworkConf L W confPath)
                          = Returns (b, Some e)
                          /\ result call = Returns (Some e)))
      /\ spawns (trace call) = [] /\ reads (trace call) = [confPath]
      /\ stats (trace call) = [pluginPath])
  \/ (checksPass L W req
      /\ (exists pod netConf,
            json_Unmarshal_pod L (OrchestratorContext req) = (pod, None)
            /\ result (getNetworkConf L W confPath) = Returns (netConf, None)
            /\ let c := pluginCmd L (updateRuntime req pod) netConf in
               result call = Returns (pluginErr L (Cmd_Run W c).2 (Cmd_Run W c).1)
               /\ spawns (trace call) = [c])
      /\ reads (trace call) = [confPath]
      /\ stats (trace call) = [pluginPath]).
Proof.
  intros call. subst call. unfold checksPass.
  destruct (binaryMissing W) eqn:Hb.
  { left. rewrite (update_binary_missing L W req op Hb).
    split; [intros (H & _); discriminate |]. repeat split. eauto. }
  destruct (String.eqb_spec (requestIP req) EmptyString) as [Hip | Hip].
  { left. rewrite (update_empty_address L W req op Hb Hip).
    split; [intros (_ & H & _); contradiction |]. repeat split. eauto. }
  destruct (json_Unmarshal_pod L (OrchestratorContext req)) as [pod [e |]] eqn:Hdec.
  { left. rewrite (update_bad_context L W req op e Hb Hip);
      [| rewrite Hdec; reflexivity].
    split; [intros (_ & _ & H); discriminate |]. repeat split. eauto. }
  destruct (result (getNetworkConf L W confPath)) as [[netConf [e |]] | p] eqn:Hg.
  - destruct (update_passed_error L W req op pod netConf e Hb Hip Hdec Hg)
      as (Hr & Hs & Hrd & Hst).
    right. left. repeat split; try assumption. right. eauto.
  - destruct (update_passed_document L W req op pod netConf Hb Hip Hdec Hg)
      as (Hr & Hs & Hrd & Hst).
    right. right. repeat split; try assumption.
    exists pod, netConf. repeat split; assumption.
  - destruct (update_passed_panic L W req op pod p Hb Hip Hdec Hg)
      as (Hr & Hs & Hrd & Hst).
    right. left. repeat split; try assumption. left. eauto.
Qed.

(** The order of the effects of the update path. *)
Lemma update_statReadRun (L : GoLib) (W : World)
      (req : CreateNetworkContainerRequest) (op : string) :
  statReadRun (trace (createOrUpdateWithOperation L W req op)).
Proof.
  unfold statReadRun.
  exists [EvLog "[Azure CNS] createOrUpdateWithOperation called with operation type %v"
                [LString op]].
  destruct (binaryMissing W) eqn:Hb.
  { rewrite (update_binary_missing L W req op Hb).
    eexists. split; [reflexivity |]. split; [reflexivity |]. left. reflexivity. }
  destruct (String.eqb_spec (requestIP req) EmptyString) as [Hip | Hip].
  { rewrite (update_empty_address L W req op Hb Hip).
    eexists. split; [reflexivity |]. split; [reflexivity |]. left. reflexivity. }
  destruct (json_Unmarshal_pod L (OrchestratorContext req)) as [pod [de |]] eqn:Hdec.
  { rewrite (update_bad_context L W req op de Hb Hip);
      [| rewrite Hdec; reflexivity].
    eexists. split; [reflexivity |]. split; [reflexivity |]. left. reflexivity. }
  rewrite (update_after_checks L W req op pod Hb Hip Hdec).
  rewrite !bind_emit, getNetworkConf_pair.
  destruct (result (getNetworkConf L W confPath)) as [[netConf [ge |]] | p];
    cbn [bind snd fst trace result app].
  - eexists. split; [reflexivity |]. split; [reflexivity |]. right.
    exists [EvLog "[Azure CNS] Pod info %v" [LPodInfo pod];
            EvLog "[Azure CNS] run time conf info %v"
                  [LRuntimeConf (updateRuntime req pod)]].
    eexists. split; [reflexivity |]. split; [reflexivity |]. left. reflexivity.
  - rewrite bind_emit, updateNetwork_run. cbn [bind snd fst trace result app].
    eexists. split; [reflexivity |]. split; [reflexivity |]. right.
    exists [EvLog "[Azure CNS] Pod info %v" [LPodInfo pod];
            EvLog "[Azure CNS] run time conf info %v"
                  [LRuntimeConf (updateRuntime req pod)]].
    eexists. split; [reflexivity |]. split; [reflexivity |]. right.
    exists [EvLog "[Azure CNS] network configuration info %v"
                  [LString (string_of_list_byte netConf)];
            EvLog "[Azure CNS] CNI called with environ variables %v"
                  [LEnviron (AsEnv L (args "UPDATE" (updateRuntime req pod)))]].
    destruct (pluginErr L _ _) as [pe |]; cbn [bind ret snd fst app];
      eexists _, _; (split; [reflexivity |]); repeat split.
  - eexists. split; [reflexivity |]. split; [reflexivity |]. right.
    exists [EvLog "[Azure CNS] Pod info %v" [LPodInfo pod];
            EvLog "[Azure CNS] run time conf info %v"
                  [LRuntimeConf (updateRuntime req pod)]].
    eexists. split; [reflexivity |]. split; [reflexivity |]. left. reflexivity.
Qed.

(** X11: the update path is one-shot, and its effects come in a fixed
    order.  Whatever the request and the world, it examines the plugin
    binary exactly once, reads at most one file, the configuration list,
    and calls [Run] at most once, on the plugin binary.  In the trace the
    stat comes first, the read after the stat, the call of [Run] after the
    read, with nothing but log lines before, between and after them. *)
Theorem update_one_shot (L : GoLib) (W : World)
        (req : CreateNetworkContainerRequest) (op : string) :
  stats (trace (createOrUpdateWithOperation L W req op)) = [pluginPath]
  /\ (reads (trace (createOrUpdateWithOperation L W req op)) = []
      \/ reads (trace (createOrUpdateWithOperation L W req op)) = [confPath])
  /\ (length (spawns (trace (createOrUpdateWithOperation L W req op))) <= 1)%nat
  /\ (forall c, In c (spawns (trace (createOrUpdateWithOperation L W req op))) ->
      cmd_Path c = pluginPath
      /\ reads (trace (createOrUpdateWithOperation L W req op)) = [confPath])
  /\ statReadRun (trace (createOrUpdateWithOperation L W req op)).
Proof.
  pose proof (update_statReadRun L W req op) as Horder. revert Horder.
  destruct (update_observed L W req op)
    as [(_ & _ & Hs & Hr & Ht) | [(_ & _ & Hs & Hr & Ht)
                                  | (_ & (pod & nc & _ & _ & _ & Hs) & Hr & Ht)]];
    rewrite Hs, Hr, Ht; intros Horder.
  - split; [reflexivity |]. split; [left; reflexivity |].
    split; [simpl; lia |]. split; [intros c [] | exact Horder].
  - split; [reflexivity |]. split; [right; reflexivity |].
    split; [simpl; lia |]. split; [intros c [] | exact Horder].
  - split; [reflexivity |]. split; [right; reflexivity |].
    split; [simpl; lia |]. split; [| exact Horder].
    intros c [<- | []]. split; reflexivity.
Qed.

(** X12: the configuration list is read exactly when all three checks have
    passed: the binary is there (or could not be examined), the address is
    not empty and the context decodes. *)
Theorem update_reads_iff_checks_pass (L : GoLib) (W : World)
        (req : CreateNetworkContainerRequest) (op : string) :
  reads (trace (createOrUpdateWithOperation L W req op)) = [confPath]
  <-> checksPass L W req.
Proof.
  destruct (update_observed L W req op)
    as [(Hno & _ & _ & Hr & _) | [(Hyes & _ & _ & Hr & _)
                                  | (Hyes & _ & Hr & _)]];
    rewrite Hr; split; auto; try discriminate; intros; contradiction.
Qed.

(** X13: success means the plugin ran and exited cleanly.  If the update
    path returns nil, then all checks passed, the flattener gave a
    document, exactly one process was started, with that document on its
    standard input, and its run reported no error. *)
Theorem update_success_means_clean_run (L : GoLib) (W : World)
        (req : CreateNetworkContainerRequest) (op : string) :
  result (createOrUpdateWithOperation L W req op) = Returns None ->
  checksPass L W req
  /\ exists pod netConf,
       json_Unmarshal_pod L (OrchestratorContext req) = (pod, None)
       /\ result (getNetworkConf L W confPath) = Returns (netConf, None)
       /\ spawns (trace (createOrUpdateWithOperation L W req op))
          = [pluginCmd L (updateRuntime req pod) netConf]
       /\ (Cmd_Run W (pluginCmd L (updateRuntime req pod) netConf)).2 = None.
Proof.
  intros Hnil.
  destruct (update_observed L W req op)
    as [(_ & (e & He) & _) | [(_ & [(p & _ & Hp) | (b & e & _ & He)] & _)
                              | (Hyes & (pod & nc & Hdec & Hg & Hr & Hs) & _)]];
    try congruence.
  split; [exact Hyes |]. exists pod, nc. repeat split; try assumption.
  rewrite Hr in Hnil. injection Hnil as Hnil.
  apply pluginErr_none in Hnil. exact Hnil.
Qed.

(** On the sample host the update succeeds, so the plugin ran once, with
    the flat document. *)
Lemma update_success_means_clean_run_sample :
  let W := Sample.world (Sample.host Sample.conflist Sample.pluginOk) in
  exists pod netConf,
    spawns (trace (createOrUpdateWithOperation (Ref.lib []) W More.kubeRequest
                     "UPDATE"))
    = [pluginCmd (Ref.lib []) (updateRuntime More.kubeRequest pod) netConf]
    /\ (Cmd_Run W (pluginCmd (Ref.lib []) (updateRuntime More.kubeRequest pod)
                     netConf)).2 = None.
Proof.
  intros W.
  destruct (update_success_means_clean_run (Ref.lib []) W More.kubeRequest
              "UPDATE" eq_refl) as (_ & pod & netConf & _ & _ & Hs & Hrun).
  exists pod, netConf. split; assumption.
Defined.

(** X14: once the checks have passed and the flattener has given a
    document, the update path calls [Run] exactly once, on the command of
    the plugin binary with the runtime configuration of the request (no
    container id, no namespace path, the network container id as interface
    name, the pod's namespace and name as arguments) and the document on
    standard input, and returns what [pluginErr] makes of that call,
    whether or not the binary could be started. *)
Theorem update_runs_plugin (L : GoLib) (W : World)
        (req : CreateNetworkContainerRequest) (op : string)
        (pod : KubernetesPodInfo) (netConf : bytes) :
  binaryMissing W = false ->
  requestIP req <> EmptyString ->
  json_Unmarshal_pod L (OrchestratorContext req) = (pod, None) ->
  result (getNetworkConf L W confPath) = Returns (netConf, None) ->
  spawns (trace (createOrUpdateWithOperation L W req op))
  = [pluginCmd L (updateRuntime req pod) netConf]
  /\ result (createOrUpdateWithOperation L W req op)
     = Returns (pluginErr L
                  (Cmd_Run W (pluginCmd L (updateRuntime req pod) netConf)).2
                  (Cmd_Run W (pluginCmd L (updateRuntime req pod) netConf)).1).
Proof.
  intros Hb Hip Hdec Hg.
  destruct (update_passed_document L W req op pod netConf Hb Hip Hdec Hg)
    as (Hr & Hs & _).
  split; assumption.
Qed.

(** On the sample host with a plugin that fails with the payload boom. *)
Lemma update_runs_plugin_sample :
  let W := Sample.world (Sample.host Sample.conflist
                           (Sample.pluginFails Sample.boom)) in
  spawns (trace (createOrUpdateWithOperation (Ref.lib []) W More.kubeRequest
                   "UPDATE"))
  = [pluginCmd (Ref.lib []) (updateRuntime More.kubeRequest More.pod)
               Sample.flatText]
  /\ result (createOrUpdateWithOperation (Ref.lib []) W More.kubeRequest
               "UPDATE")
     = Returns (pluginErr (Ref.lib []) (Some (ExitError 1)) Sample.boom).
Proof.
  intros W.
  apply (update_runs_plugin (Ref.lib []) W More.kubeRequest "UPDATE" More.pod
           Sample.flatText); [reflexivity | discriminate | reflexivity
                              | reflexivity].
Defined.

(** The binary cannot be started: [Run] is called once, no plugin runs,
    and the error of the start is what the update path returns. *)
Example update_failed_start :
  let W := Sample.world (Sample.host Sample.conflist More.pluginNotStarted) in
  spawns (trace (createOrUpdateWithOperation (Ref.lib []) W More.kubeRequest
                   "UPDATE"))
  = [pluginCmd (Ref.lib []) (updateRuntime More.kubeRequest More.pod)
               Sample.flatText]
  /\ result (createOrUpdateWithOperation (Ref.lib []) W More.kubeRequest
               "UPDATE")
     = Returns (Some (PathError "fork/exec" pluginPath ENOEXEC)).
Proof. intros W. split; vm_compute; reflexivity. Qed.

(** X15: a panic of the flattener is the panic of the update path: once
    the checks have passed, a configuration list that makes
    [getNetworkConf] panic makes [createOrUpdateWithOperation] panic with
    the same value, and no process is started. *)
Theorem update_flattener_panic (L : GoLib) (W : World)
        (req : CreateNetworkContainerRequest) (op : string) (p : panic) :
  checksPass L W req ->
  result (getNetworkConf L W confPath) = Panics p ->
  result (createOrUpdateWithOperation L W req op) = Panics p
  /\ spawns (trace (createOrUpdateWithOperation L W req op)) = [].
Proof.
  intros (Hb & Hip & Hdec) Hg.
  destruct (json_Unmarshal_pod L (OrchestratorContext req)) as [pod err] eqn:Hpod.
  simpl in Hdec. subst err.
  destruct (update_passed_panic L W req op pod p Hb Hip Hpod Hg)
    as (Hr & Hs & _).
  split; assumption.
Qed.

Lemma update_flattener_panic_sample :
  let W := Sample.world (Sample.host More.conflistNoName Sample.pluginOk) in
  result (createOrUpdateWithOperation (Ref.lib []) W More.kubeRequest "UPDATE")
  = Panics (TypeAssertionPanic TNil TString)
  /\ spawns (trace (createOrUpdateWithOperation (Ref.lib []) W More.kubeRequest
                      "UPDATE")) = [].
Proof.
  intros W.
  apply (update_flattener_panic (Ref.lib []) W More.kubeRequest "UPDATE").
  - repeat split; [discriminate].
  - reflexivity.
Defined.

(** X16: an error of the flattener is the error of the update path: once
    the checks have passed, a configuration list that cannot be read or
    decoded makes [createOrUpdateWithOperation] return that very error, and
    no process is started. *)
Theorem update_flattener_error (L : GoLib) (W : World)
        (req : CreateNetworkContainerRequest) (op : string)
        (b : bytes) (e : error) :
  checksPass L W req ->
  result (getNetworkConf L W confPath) = Returns (b, Some e) ->
  result (createOrUpdateWithOperation L W req op) = Returns (Some e)
  /\ spawns (trace (createOrUpdateWithOperation L W req op)) = [].
Proof.
  intros (Hb & Hip & Hdec) Hg.
  destruct (json_Unmarshal_pod L (OrchestratorContext req)) as [pod err] eqn:Hpod.
  simpl in Hdec. subst err.
  destruct (update_passed_error L W req op pod b e Hb Hip Hpod Hg)
    as (Hr & Hs & _).
  split; assumption.
Qed.

(** The host without configuration list: the error of the open comes
    back. *)
Lemma update_flattener_error_sample :
  let W := Sample.world More.noConf in
  result (createOrUpdateWithOperation (Ref.lib []) W More.kubeRequest "UPDATE")
  = Returns (Some (PathError "open" confPath ENOENT))
  /\ spawns (trace (createOrUpdateWithOperation (Ref.lib []) W More.kubeRequest
                      "UPDATE")) = [].
Proof.
  intros W.
  apply (update_flattener_error (Ref.lib []) W More.kubeRequest "UPDATE" []).
  - repeat split; [discriminate].
  - reflexivity.
Defined.

(** X21: which errors are logged.  The errors of the first two checks
    (binary missing, empty address) are returned without a log line of
    their own; every error returned after these checks (context not
    decoded, configuration list not flattened, plugin failed) is logged
    just before the return: the last event is a log line that carries that
    very error. *)
Theorem update_errors_logged (L : GoLib) (W : World)
        (req : CreateNetworkContainerRequest) (op : string) (e : error) :
  result (createOrUpdateWithOperation L W req op) = Returns (Some e) ->
  (binaryMissing W = true \/ requestIP req = EmptyString ->
   last (trace (createOrUpdateWithOperation L W req op))
   = Some (EvStat pluginPath))
  /\ (binaryMissing W = false -> requestIP req <> EmptyString ->
      exists format others,
        last (trace (createOrUpdateWithOperation L W req op))
        = Some (EvLog format (others ++ [LError e]))).
Proof.
  intros Hres.
  destruct (binaryMissing W) eqn:Hb.
  { rewrite (update_binary_missing L W req op Hb).
    split; [reflexivity | discriminate]. }
  destruct (String.eqb_spec (requestIP req) EmptyString) as [Hip | Hip].
  { rewrite (update_empty_address L W req op Hb Hip).
    split; [reflexivity | intros _ H; contradiction]. }
  split; [intros [H | H]; [discriminate | contradiction] |].
  intros _ _. revert Hres.
  destruct (json_Unmarshal_pod L (OrchestratorContext req)) as [pod [de |]] eqn:Hdec.
  { rewrite (update_bad_context L W req op de Hb Hip);
      [| rewrite Hdec; reflexivity].
    intros [= ->]. eexists _, [_]. reflexivity. }
  rewrite (update_after_checks L W req op pod Hb Hip Hdec).
  rewrite !bind_emit, getNetworkConf_pair.
  destruct (result (getNetworkConf L W confPath)) as [[netConf [ge |]] | p];
    cbn [bind snd fst trace result].
  - intros [= ->]. eexists _, []. reflexivity.
  - rewrite bind_emit, updateNetwork_run. cbn [bind snd fst trace result].
    destruct (pluginErr L _ _) as [pe |]; cbn [bind ret snd fst];
      intros [= ->]. eexists _, []. reflexivity.
  - discriminate.
Qed.

(** A plugin that fails: the error returned is the one of the last log
    line. *)
Lemma update_errors_logged_sample :
  let W := Sample.world (Sample.host Sample.conflist
                           (Sample.pluginFails Sample.boom)) in
  exists format others,
    last (trace (createOrUpdateWithOperation (Ref.lib []) W More.kubeRequest
                   "UPDATE"))
    = Some (EvLog format
              (others ++ [LError (TypesError {| Fset := false; Pos := 0;
                                                Msg := "boom";
                                                Soft := false |})])).
Proof.
  intros W.
  destruct (update_errors_logged (Ref.lib []) W More.kubeRequest "UPDATE"
              (TypesError {| Fset := false; Pos := 0; Msg := "boom";
                             Soft := false |}) eq_refl) as [_ H].
  apply H; [reflexivity | discriminate].
Defined.

(* ================================================================== *)
(** ** More on [createOrUpdateInterface] *)

Lemma traceAll_bind (P : event -> Prop) {A B} (m : M A) (f : A -> M B) :
  traceAll P m -> (forall a, traceAll P (f a)) -> traceAll P (bind m f).
Proof.
  unfold traceAll. intros Hm Hf. rewrite trace_bind.
  apply Forall_app. split; [exact Hm |].
  destruct (result m); [apply Hf | constructor].
Qed.

Lemma traceAll_ret (P : event -> Prop) {A} (a : A) : traceAll P (ret a).
Proof. constructor. Qed.

Lemma traceAll_emit (P : event -> Prop) (ev : event) :
  P ev -> traceAll P (emit ev).
Proof. intros H. constructor; [exact H | constructor]. Qed.

(** The update path never asks whether an interface exists. *)
Lemma update_no_lookup (L : GoLib) (W : World)
      (req : CreateNetworkContainerRequest) (op : string) :
  traceAll (fun ev => isLookup ev = false)
           (createOrUpdateWithOperation L W req op).
Proof.
  unfold createOrUpdateWithOperation, buildCNIRuntimeConf, log_Printf.
  repeat match goal with
         | |- traceAll _ (bind _ _) => apply traceAll_bind; [| intros ?]
         | |- traceAll _ (ret _) => apply traceAll_ret
         | |- traceAll _ (emit _) => apply traceAll_emit; reflexivity
         | |- traceAll _ (getNetworkConf _ _ _) =>
             unfold traceAll; rewrite getNetworkConf_trace;
             repeat constructor
         | |- traceAll _ (updateNetwork _ _ _ _) =>
             unfold traceAll; rewrite updateNetwork_run;
             repeat constructor
         | |- traceAll _ (match ?x with _ => _ end) => destruct x
         end.
Qed.

Lemma lookups_none (t : list event) :
  Forall (fun ev => isLookup ev = false) t -> lookups t = [].
Proof.
  induction 1 as [| ev t Hev _ IH]; [reflexivity |].
  destruct ev; try discriminate; exact IH.
Qed.

(** X17: for a request that is not of the WebApps type and whose interface
    exists, [createOrUpdateInterface] is the interface lookup followed by
    the update path with the operation UPDATE: same result, and the
    lookup in front of the same events. *)
Theorem createOrUpdateInterface_updates (WebApps : string) (L : GoLib)
        (W : World) (req : CreateNetworkContainerRequest) :
  NetworkContainerType req <> WebApps ->
  (interfaceExists W (NetworkContainerid req)).1 = true ->
  result (createOrUpdateInterface WebApps L W req)
  = result (createOrUpdateWithOperation L W req "UPDATE")
  /\ trace (createOrUpdateInterface WebApps L W req)
     = EvInterfaceExists (NetworkContainerid req)
       :: trace (createOrUpdateWithOperation L W req "UPDATE").
Proof.
  intros Htype Hex. unfold createOrUpdateInterface.
  apply String.eqb_neq in Htype. rewrite Htype, bind_emit.
  destruct (interfaceExists W (NetworkContainerid req)) as [ex err].
  simpl in Hex. subst ex. split; reflexivity.
Qed.

Lemma createOrUpdateInterface_updates_sample :
  let W := Sample.world (Sample.host Sample.conflist Sample.pluginOk) in
  result (createOrUpdateInterface "WebApps" (Ref.lib []) W More.kubeRequest)
  = result (createOrUpdateWithOperation (Ref.lib []) W More.kubeRequest "UPDATE")
  /\ trace (createOrUpdateInterface "WebApps" (Ref.lib []) W More.kubeRequest)
     = EvInterfaceExists "eth1"
       :: trace (createOrUpdateWithOperation (Ref.lib []) W More.kubeRequest
                   "UPDATE").
Proof.
  intros W.
  apply (createOrUpdateInterface_updates "WebApps" (Ref.lib []) W
           More.kubeRequest); [discriminate | reflexivity].
Defined.

(** X18: the error that [interfaceExists] returns beside its answer is
    dropped: [createOrUpdateInterface] behaves the same in a world where
    the lookup reports no error. *)
Theorem createOrUpdateInterface_drops_lookup_error (WebApps : string)
        (L : GoLib) (W : World) (req : CreateNetworkContainerRequest) :
  createOrUpdateInterface WebApps L W req
  = createOrUpdateInterface WebApps L (lookupErrorDropped W) req.
Proof.
  unfold createOrUpdateInterface.
  destruct (String.eqb (NetworkContainerType req) WebApps); [reflexivity |].
  cbn [interfaceExists lookupErrorDropped].
  destruct (interfaceExists W (NetworkContainerid req)) as [ex err].
  destruct ex; reflexivity.
Qed.

(** X19: the interface lookup happens at most once, for the network
    container id of the request, and not at all for a request of the
    WebApps type. *)
Theorem createOrUpdateInterface_lookups (WebApps : string) (L : GoLib)
        (W : World) (req : CreateNetworkContainerRequest) :
  lookups (trace (createOrUpdateInterface WebApps L W req))
  = if String.eqb (NetworkContainerType req) WebApps then []
    else [NetworkContainerid req].
Proof.
  unfold createOrUpdateInterface.
  destruct (String.eqb (NetworkContainerType req) WebApps); [reflexivity |].
  rewrite bind_emit.
  destruct (interfaceExists W (NetworkContainerid req)) as [[] err];
    [| reflexivity].
  change (NetworkContainerid req
          :: lookups (trace (createOrUpdateWithOperation L W req "UPDATE"))
          = [NetworkContainerid req]).
  f_equal. apply lookups_none, update_no_lookup.
Qed.

(** X20: [createOrUpdateInterface] as a whole starts at most one process,
    and when it returns nil without having started one, the request was of
    the WebApps type or its interface did not exist. *)
Theorem createOrUpdateInterface_nil_without_run (WebApps : string) (L : GoLib)
        (W : World) (req : CreateNetworkContainerRequest) :
  (length (spawns (trace (createOrUpdateInterface WebApps L W req))) <= 1)%nat
  /\ (result (createOrUpdateInterface WebApps L W req) = Returns None ->
      spawns (trace (createOrUpdateInterface WebApps L W req)) = [] ->
      NetworkContainerType req = WebApps
      \/ (interfaceExists W (NetworkContainerid req)).1 = false).
Proof.
  unfold createOrUpdateInterface.
  destruct (String.eqb_spec (NetworkContainerType req) WebApps) as [Ht | Ht].
  { split; [simpl; lia | auto]. }
  rewrite bind_emit.
  destruct (interfaceExists W (NetworkContainerid req)) as [[] err];
    [| split; [simpl; lia | auto]].
  change ((length (spawns (trace (createOrUpdateWithOperation L W req "UPDATE")))
           <= 1)%nat
          /\ (result (createOrUpdateWithOperation L W req "UPDATE") = Returns None ->
              spawns (trace (createOrUpdateWithOperation L W req "UPDATE")) = [] ->
              NetworkContainerType req = WebApps \/ true = false)).
  destruct (update_observed L W req "UPDATE")
    as [(_ & (e & He) & Hs & _) | [(_ & Hres & Hs & _)
                                  | (_ & (pod & nc & _ & _ & Hr & Hs) & _)]];
    rewrite Hs.
  - split; [simpl; lia |]. intros Hnil. congruence.
  - split; [simpl; lia |]. intros Hnil.
    destruct Hres as [(p & _ & Hp) | (b & e & _ & He)]; congruence.
  - split; [simpl; lia |]. intros _ Hnone. discriminate.
Qed.
